(** * Sample bar chart visual: view-model transform and selection state

    A shallow embedding of [src/barChart.ts]: the function [visualTransform]
    with its colour helpers, and the methods [syncSelectionState] with
    [isSelectionIdInArray], [enumerateObjectInstances], [getTooltipData] and
    [HandleLandingPage] with [createSampleLandingPage] of the class
    [BarChart], and the [style] call of [update] on the bars.  JavaScript
    numbers are IEEE binary64
    values ([float]); objects used as dictionaries are finite maps keyed by
    strings; [undefined]/[null] members are [option]s; a [TypeError] raised
    by a member access on [undefined] is an explicit [Throw]. *)

From Stdlib Require Import Floats.
From stdpp Require Import gmap strings list.

Set Warnings "-inexact-float".
Local Open Scope string_scope.
Local Open Scope list_scope.
Local Open Scope nat_scope.

(** ** Completions: a call either returns or throws *)

Inductive JsError : Type :=
| TypeError (message : string).

Inductive Completion (A : Type) : Type :=
| Normal (a : A)
| Throw (e : JsError).
Arguments Normal {A} a.
Arguments Throw {A} e.

(** [let? x := e else d in k]: one operand of a [!e || ...] chain, and any
    other test of a possibly absent member; [d] is taken when [e] is falsy
    (absent). *)
Notation "'let?' x := e 'else' d 'in' k" :=
  (match e with Some x => k | None => d end)
  (at level 10, x pattern, e at level 100, d at level 100, k at level 200,
   only parsing).

(** ** Values exchanged with the host *)

(** [PrimitiveValue = string | number | boolean | Date], together with the
    two absent values an untyped read can produce.  A [Date] is carried by
    its time value. *)
Inductive PrimitiveValue : Type :=
| PUndefined
| PNull
| PBoolean (b : bool)
| PNumber (n : float)
| PString (s : string)
| PDate (time : float).

(** Reading [xs[i]] from an array: [undefined] past the end. *)
Definition at_index (xs : list PrimitiveValue) (i : nat) : PrimitiveValue :=
  default PUndefined (xs !! i).

Module Fill.
Record solid_t : Type := { color : string }.
Record t : Type := { solid : solid_t }.
End Fill.

Inductive DataViewPropertyValue : Type :=
| Primitive (v : PrimitiveValue)
| FillValue (f : Fill.t).

(** [objects[objectName][propertyName]] *)
Abbreviation DataViewObject := (gmap string DataViewPropertyValue).
Abbreviation DataViewObjects := (gmap string DataViewObject).

Inductive twoValsEnum : Type := above | under.

Inductive specialValsEnum : Type := coffee | warning | musicalNote.

(** ** The data view *)

Module DataViewMetadataColumn.
Record t : Type := { displayName : string }.
End DataViewMetadataColumn.

Module DataViewCategoryColumn.
Record t : Type := {
  source : option DataViewMetadataColumn.t;
  values : list PrimitiveValue;
  objects : option (list (option DataViewObjects));
}.
End DataViewCategoryColumn.

Module DataViewValueColumn.
Record t : Type := {
  values : list PrimitiveValue;
  maxLocal : PrimitiveValue;
}.
End DataViewValueColumn.

Module DataViewCategorical.
Record t : Type := {
  categories : option (list DataViewCategoryColumn.t);
  values : option (list DataViewValueColumn.t);
}.
End DataViewCategorical.

Module DataViewMetadata.
Record t : Type := { objects : option DataViewObjects }.
End DataViewMetadata.

Module DataView.
Record t : Type := {
  metadata : DataViewMetadata.t;
  categorical : option DataViewCategorical.t;
}.
End DataView.

Module VisualUpdateOptions.
Record t : Type := { dataViews : option (list DataView.t) }.
End VisualUpdateOptions.

(** ** The host services *)

Module IColorInfo.
Record t : Type := { value : string }.
End IColorInfo.

Module ISandboxExtendedColorPalette.
Record t : Type := {
  isHighContrast : bool;
  foreground : IColorInfo.t;
  background : IColorInfo.t;
  getColor : string -> IColorInfo.t;
}.
End ISandboxExtendedColorPalette.

(** What the runtime and the host library supply and this file only calls:
    selection identities with their builder and containment test, and the
    string conversion of numbers and dates used by template literals. *)
Class HostRuntime : Type := {
  ISelectionId : Type;
  ISelectionIdBuilder : Type;
  withCategory :
    ISelectionIdBuilder -> DataViewCategoryColumn.t -> nat -> ISelectionIdBuilder;
  createSelectionId : ISelectionIdBuilder -> ISelectionId;
  includes : ISelectionId -> ISelectionId -> bool;
  numberToString : float -> string;
  dateToString : float -> string;
}.

Module IVisualHost.
Record t `{HostRuntime} : Type := {
  colorPalette : ISandboxExtendedColorPalette.t;
  createSelectionIdBuilder : ISelectionIdBuilder;
}.
End IVisualHost.

(** The template literal [`${v}`]. *)
Definition templateString `{HostRuntime} (v : PrimitiveValue) : string :=
  match v with
  | PUndefined => "undefined"
  | PNull => "null"
  | PBoolean true => "true"
  | PBoolean false => "false"
  | PNumber n => numberToString n
  | PString s => s
  | PDate time => dateToString time
  end.

(** ** Settings *)

Module EnableAxis.
Record t : Type := { show : bool; fill : string }.
End EnableAxis.

(** [helpLinkColor] is declared a [string]; it receives [null] outside
    high-contrast mode, hence the [option]. *)
Module GeneralView.
Record t : Type := {
  opacity : float;
  showBugBashData : bool;
  showHelpLink : bool;
  helpLinkColor : option string;
  specialEnumeration : specialValsEnum;
}.
End GeneralView.

Module TestAnalyticsProperty.
Record t : Type := {
  show : bool;
  displayName : string;
  opacity : float;
  showHelpLink : bool;
  helpLinkColor : option string;
  specialEnumeration : specialValsEnum;
}.
End TestAnalyticsProperty.

(** The sections [CardWithManyPropertiesAnalytics] and
    [CardWithManyPropertiesFormatting] have the same members. *)
Module CardWithManyProperties.
Record t : Type := {
  show : bool;
  displayName : string;
  unboundIntegerProperty : float;
  boundIntegerProperty : float;
  unboundNumericProperty : float;
  boundNumericProperty : float;
  booleanProperty : bool;
  textProperty : string;
  specialEnumeration : specialValsEnum;
  colorProperty : string;
  nullableColorProperty : string;
  formattingLableDisplayUnitsProperty : float;
  formattingAlignmentProperty : string;
  formattingFontSizeProperty : float;
}.
End CardWithManyProperties.

Record BarChartSettings : Type := {
  enableAxis : EnableAxis.t;
  generalView : GeneralView.t;
  testAnalyticsProperty : TestAnalyticsProperty.t;
  CardWithManyPropertiesAnalytics : CardWithManyProperties.t;
  CardWithManyPropertiesFormatting : CardWithManyProperties.t;
}.

(** The local [defaultSettings] of [visualTransform]. *)
Definition defaultSettings : BarChartSettings := {|
  enableAxis := {|
    EnableAxis.show := false;
    EnableAxis.fill := "#000000";
  |};
  generalView := {|
    GeneralView.opacity := 100;
    GeneralView.showBugBashData := false;
    GeneralView.showHelpLink := false;
    GeneralView.helpLinkColor := Some "#80B0E0";
    GeneralView.specialEnumeration := coffee;
  |};
  testAnalyticsProperty := {|
    TestAnalyticsProperty.show := false;
    TestAnalyticsProperty.displayName := "Analytics Instance";
    TestAnalyticsProperty.opacity := 100;
    TestAnalyticsProperty.showHelpLink := false;
    TestAnalyticsProperty.helpLinkColor := Some "#80B0E0";
    TestAnalyticsProperty.specialEnumeration := coffee;
  |};
  CardWithManyPropertiesAnalytics := {|
    CardWithManyProperties.show := false;
    CardWithManyProperties.displayName := "Analytics Instance";
    CardWithManyProperties.unboundIntegerProperty := 10;
    CardWithManyProperties.boundIntegerProperty := 20;
    CardWithManyProperties.unboundNumericProperty := 10.5;
    CardWithManyProperties.boundNumericProperty := 20.5;
    CardWithManyProperties.booleanProperty := false;
    CardWithManyProperties.textProperty := "What is your name?";
    CardWithManyProperties.specialEnumeration := coffee;
    CardWithManyProperties.colorProperty := "#8800FF";
    CardWithManyProperties.nullableColorProperty := "#00FF88";
    CardWithManyProperties.formattingLableDisplayUnitsProperty := 0;
    CardWithManyProperties.formattingAlignmentProperty := "right";
    CardWithManyProperties.formattingFontSizeProperty := 10;
  |};
  CardWithManyPropertiesFormatting := {|
    CardWithManyProperties.show := false;
    CardWithManyProperties.displayName := "Formatting Instance";
    CardWithManyProperties.unboundIntegerProperty := 10;
    CardWithManyProperties.boundIntegerProperty := 20;
    CardWithManyProperties.unboundNumericProperty := 10.5;
    CardWithManyProperties.boundNumericProperty := 20.5;
    CardWithManyProperties.booleanProperty := false;
    CardWithManyProperties.textProperty := "What is your quest?";
    CardWithManyProperties.specialEnumeration := coffee;
    CardWithManyProperties.colorProperty := "#8800FF";
    CardWithManyProperties.nullableColorProperty := "#00FF88";
    CardWithManyProperties.formattingLableDisplayUnitsProperty := 0;
    CardWithManyProperties.formattingAlignmentProperty := "right";
    CardWithManyProperties.formattingFontSizeProperty := 10;
  |};
|}.

(** ** Reading host overrides *)

(** The run-time types a settings member can be read at. *)
Class PropertyType (T : Type) : Type :=
  ofPropertyValue : DataViewPropertyValue -> option T.

#[export] Instance boolean_property : PropertyType bool :=
  fun property =>
    match property with Primitive (PBoolean b) => Some b | _ => None end.

#[export] Instance number_property : PropertyType float :=
  fun property =>
    match property with Primitive (PNumber n) => Some n | _ => None end.

#[export] Instance string_property : PropertyType string :=
  fun property =>
    match property with Primitive (PString s) => Some s | _ => None end.

(** A numeric [enum]: [coffee = 0], [warning = 1], [musicalNote = 2]. *)
#[export] Instance specialValsEnum_property : PropertyType specialValsEnum :=
  fun property =>
    match property with
    | Primitive (PNumber n) =>
        if PrimFloat.eqb n 0 then Some coffee
        else if PrimFloat.eqb n 1 then Some warning
        else if PrimFloat.eqb n 2 then Some musicalNote
        else None
    | _ => None
    end.

#[export] Instance fill_property : PropertyType Fill.t :=
  fun property =>
    match property with FillValue f => Some f | _ => None end.

(** The host-provided override of [(objectName, propertyName)], if any. *)
Definition hostOverride (objects : option DataViewObjects)
    (objectName propertyName : string) : option DataViewPropertyValue :=
  objs ← objects; object ← objs !! objectName; object !! propertyName.

(** Modelled from the spec: the helper [getValue], which [barChart.ts] calls
    and does not define.  "For each (section, field), return the
    host-provided override if present and well-typed, else a compiled-in
    default"; "absence is treated as use default, not as failure". *)
Definition getValue {T : Type} `{PropertyType T}
    (objects : option DataViewObjects) (objectName propertyName : string)
    (defaultValue : T) : T :=
  let? property := hostOverride objects objectName propertyName
    else defaultValue in
  let? typed := ofPropertyValue property else defaultValue in
  typed.

(** The per-row override of [(objectName, propertyName)] that the category
    column carries for row [index], if any. *)
Definition rowOverride (category : DataViewCategoryColumn.t) (index : nat)
    (objectName propertyName : string) : option DataViewPropertyValue :=
  categoryObjects ← DataViewCategoryColumn.objects category;
  categoryObject ← mjoin (categoryObjects !! index);
  object ← categoryObject !! objectName;
  object !! propertyName.

(** Modelled from the spec: the helper [getCategoricalObjectValue], which
    [barChart.ts] calls and does not define.  A "per-row override lookup
    ([colorSelector] object keyed by category identity)": the "per-row
    override if present", else the default handed in. *)
Definition getCategoricalObjectValue {T : Type} `{PropertyType T}
    (category : DataViewCategoryColumn.t) (index : nat)
    (objectName propertyName : string) (defaultValue : T) : T :=
  let? property := rowOverride category index objectName propertyName
    else defaultValue in
  let? typed := ofPropertyValue property else defaultValue in
  typed.

(** ** Colour helpers *)

Import ISandboxExtendedColorPalette.

Section Transform.
Context `{HostRuntime}.

Definition getColumnColorByIndex (category : DataViewCategoryColumn.t)
    (index : nat) (colorPalette : ISandboxExtendedColorPalette.t) : string :=
  if isHighContrast colorPalette then
    IColorInfo.value (background colorPalette)
  else
    let defaultColor : Fill.t := {|
      Fill.solid := {|
        Fill.color :=
          IColorInfo.value
            (getColor colorPalette
               (templateString
                  (at_index (DataViewCategoryColumn.values category) index)));
      |}
    |} in
    Fill.color
      (Fill.solid
         (getCategoricalObjectValue category index "colorSelector" "fill"
            defaultColor)).

Definition getColumnStrokeColor (colorPalette : ISandboxExtendedColorPalette.t)
    : option string :=
  if isHighContrast colorPalette then
    Some (IColorInfo.value (foreground colorPalette))
  else None.

Definition getColumnStrokeWidth (isHighContrast : bool) : float :=
  if isHighContrast then 2 else 0.

Definition getAxisTextFillColor (objects : option DataViewObjects)
    (colorPalette : ISandboxExtendedColorPalette.t) (defaultColor : string)
    : string :=
  if isHighContrast colorPalette then
    IColorInfo.value (foreground colorPalette)
  else
    Fill.color
      (Fill.solid
         (getValue objects "enableAxis" "fill"
            {| Fill.solid := {| Fill.color := defaultColor |} |})).

End Transform.

(** ** The view model *)

Module BarChartDataPoint.
Record t `{HostRuntime} : Type := {
  value : PrimitiveValue;
  category : string;
  color : string;
  strokeColor : option string;
  strokeWidth : float;
  selectionId : ISelectionId;
}.
End BarChartDataPoint.

(** [dataMax] is declared a [number] and receives the column's [maxLocal]
    through a cast, which is erased at run time; [settings] starts as the
    empty object [{}], here [None]. *)
Module BarChartViewModel.
Record t `{HostRuntime} : Type := {
  dataPoints : list BarChartDataPoint.t;
  dataMax : PrimitiveValue;
  settings : option BarChartSettings;
}.
End BarChartViewModel.

Section VisualTransform.
Context `{HostRuntime}.

(** The object literal bound to [barChartSettings] in [visualTransform]. *)
Definition barChartSettings (objects : option DataViewObjects)
    (colorPalette : ISandboxExtendedColorPalette.t)
    (strokeColor : option string) : BarChartSettings := {|
  enableAxis := {|
    EnableAxis.show :=
      getValue objects "enableAxis" "show"
        (EnableAxis.show (enableAxis defaultSettings));
    EnableAxis.fill :=
      getAxisTextFillColor objects colorPalette
        (EnableAxis.fill (enableAxis defaultSettings));
  |};
  generalView := {|
    GeneralView.opacity :=
      getValue objects "generalView" "opacity"
        (GeneralView.opacity (generalView defaultSettings));
    GeneralView.showBugBashData :=
      getValue objects "generalView" "showBugBashData"
        (GeneralView.showBugBashData (generalView defaultSettings));
    GeneralView.showHelpLink :=
      getValue objects "generalView" "showHelpLink"
        (GeneralView.showHelpLink (generalView defaultSettings));
    GeneralView.helpLinkColor := strokeColor;
    GeneralView.specialEnumeration :=
      getValue objects "generalView" "specialEnumeration"
        (GeneralView.specialEnumeration (generalView defaultSettings));
  |};
  testAnalyticsProperty := {|
    TestAnalyticsProperty.show :=
      getValue objects "testAnalyticsProperty" "show"
        (TestAnalyticsProperty.show (testAnalyticsProperty defaultSettings));
    TestAnalyticsProperty.displayName :=
      getValue objects "testAnalyticsProperty" "displayName"
        (TestAnalyticsProperty.displayName
           (testAnalyticsProperty defaultSettings));
    TestAnalyticsProperty.opacity :=
      getValue objects "testAnalyticsProperty" "opacity"
        (TestAnalyticsProperty.opacity (testAnalyticsProperty defaultSettings));
    TestAnalyticsProperty.showHelpLink :=
      getValue objects "testAnalyticsProperty" "showHelpLink"
        (TestAnalyticsProperty.showHelpLink
           (testAnalyticsProperty defaultSettings));
    TestAnalyticsProperty.helpLinkColor := strokeColor;
    TestAnalyticsProperty.specialEnumeration :=
      getValue objects "testAnalyticsProperty" "specialEnumeration"
        (TestAnalyticsProperty.specialEnumeration
           (testAnalyticsProperty defaultSettings));
  |};
  CardWithManyPropertiesAnalytics :=
    let section := "CardWithManyPropertiesAnalytics" in
    let defaults := CardWithManyPropertiesAnalytics defaultSettings in {|
    CardWithManyProperties.show :=
      getValue objects section "show" (CardWithManyProperties.show defaults);
    CardWithManyProperties.displayName :=
      getValue objects section "displayName"
        (CardWithManyProperties.displayName defaults);
    CardWithManyProperties.unboundIntegerProperty :=
      getValue objects section "unboundIntegerProperty"
        (CardWithManyProperties.unboundIntegerProperty defaults);
    CardWithManyProperties.boundIntegerProperty :=
      getValue objects section "boundIntegerProperty"
        (CardWithManyProperties.boundIntegerProperty defaults);
    CardWithManyProperties.unboundNumericProperty :=
      getValue objects section "unboundNumericProperty"
        (CardWithManyProperties.unboundNumericProperty defaults);
    CardWithManyProperties.boundNumericProperty :=
      getValue objects section "boundNumericProperty"
        (CardWithManyProperties.boundNumericProperty defaults);
    CardWithManyProperties.booleanProperty :=
      getValue objects section "booleanProperty"
        (CardWithManyProperties.booleanProperty defaults);
    CardWithManyProperties.textProperty :=
      getValue objects section "textProperty"
        (CardWithManyProperties.textProperty defaults);
    CardWithManyProperties.specialEnumeration :=
      getValue objects section "specialEnumeration"
        (TestAnalyticsProperty.specialEnumeration
           (testAnalyticsProperty defaultSettings));
    CardWithManyProperties.colorProperty :=
      getValue objects section "colorProperty"
        (CardWithManyProperties.colorProperty defaults);
    CardWithManyProperties.nullableColorProperty :=
      getValue objects section "nullableColorProperty"
        (CardWithManyProperties.nullableColorProperty defaults);
    CardWithManyProperties.formattingLableDisplayUnitsProperty :=
      getValue objects section "formattingLableDisplayUnitsProperty"
        (CardWithManyProperties.formattingLableDisplayUnitsProperty defaults);
    CardWithManyProperties.formattingAlignmentProperty :=
      getValue objects section "formattingAlignmentProperty"
        (CardWithManyProperties.formattingAlignmentProperty defaults);
    CardWithManyProperties.formattingFontSizeProperty :=
      getValue objects section "formattingFontSizeProperty"
        (CardWithManyProperties.formattingFontSizeProperty defaults);
  |};
  CardWithManyPropertiesFormatting :=
    let section := "CardWithManyPropertiesFormatting" in
    let defaults := CardWithManyPropertiesFormatting defaultSettings in {|
    CardWithManyProperties.show :=
      getValue objects section "show" (CardWithManyProperties.show defaults);
    CardWithManyProperties.displayName :=
      getValue objects section "displayName"
        (CardWithManyProperties.displayName defaults);
    CardWithManyProperties.unboundIntegerProperty :=
      getValue objects section "unboundIntegerProperty"
        (CardWithManyProperties.unboundIntegerProperty defaults);
    CardWithManyProperties.boundIntegerProperty :=
      getValue objects section "boundIntegerProperty"
        (CardWithManyProperties.boundIntegerProperty defaults);
    CardWithManyProperties.unboundNumericProperty :=
      getValue objects section "unboundNumericProperty"
        (CardWithManyProperties.unboundNumericProperty defaults);
    CardWithManyProperties.boundNumericProperty :=
      getValue objects section "boundNumericProperty"
        (CardWithManyProperties.boundNumericProperty defaults);
    CardWithManyProperties.booleanProperty :=
      getValue objects section "booleanProperty"
        (CardWithManyProperties.booleanProperty defaults);
    CardWithManyProperties.textProperty :=
      getValue objects section "textProperty"
        (CardWithManyProperties.textProperty defaults);
    CardWithManyProperties.specialEnumeration :=
      getValue objects section "specialEnumeration"
        (TestAnalyticsProperty.specialEnumeration
           (testAnalyticsProperty defaultSettings));
    CardWithManyProperties.colorProperty :=
      getValue objects section "colorProperty"
        (CardWithManyProperties.colorProperty defaults);
    CardWithManyProperties.nullableColorProperty :=
      getValue objects section "nullableColorProperty"
        (CardWithManyProperties.nullableColorProperty defaults);
    CardWithManyProperties.formattingLableDisplayUnitsProperty :=
      getValue objects section "formattingLableDisplayUnitsProperty"
        (CardWithManyProperties.formattingLableDisplayUnitsProperty defaults);
    CardWithManyProperties.formattingAlignmentProperty :=
      getValue objects section "formattingAlignmentProperty"
        (CardWithManyProperties.formattingAlignmentProperty defaults);
    CardWithManyProperties.formattingFontSizeProperty :=
      getValue objects section "formattingFontSizeProperty"
        (CardWithManyProperties.formattingFontSizeProperty defaults);
  |};
|}.

(** The data point pushed by iteration [i] of the loop. *)
Definition dataPointAt (host : IVisualHost.t)
    (category : DataViewCategoryColumn.t) (dataValue : DataViewValueColumn.t)
    (strokeColor : option string) (strokeWidth : float) (i : nat)
    : BarChartDataPoint.t :=
  let colorPalette := IVisualHost.colorPalette host in
  let color := getColumnColorByIndex category i colorPalette in
  let selectionId :=
    createSelectionId
      (withCategory (IVisualHost.createSelectionIdBuilder host) category i) in
  {|
    BarChartDataPoint.color := color;
    BarChartDataPoint.strokeColor := strokeColor;
    BarChartDataPoint.strokeWidth := strokeWidth;
    BarChartDataPoint.selectionId := selectionId;
    BarChartDataPoint.value :=
      at_index (DataViewValueColumn.values dataValue) i;
    BarChartDataPoint.category :=
      templateString (at_index (DataViewCategoryColumn.values category) i);
  |}.

(** [for (let i = ..., len = ...; i < len; i++) { ....push(body i) }],
    with [remaining = len - i] iterations still to run. *)
Fixpoint forPush {A : Type} (body : nat -> A) (remaining i : nat)
    (array : list A) : list A :=
  match remaining with
  | 0 => array
  | S remaining' => forPush body remaining' (S i) (array ++ [body i])
  end.

Definition visualTransform (options : VisualUpdateOptions.t)
    (host : IVisualHost.t) : Completion BarChartViewModel.t :=
  let dataViews := VisualUpdateOptions.dataViews options in
  let viewModel := {|
    BarChartViewModel.dataPoints := [];
    BarChartViewModel.dataMax := PNumber 0;
    BarChartViewModel.settings := None;
  |} in
  let? dataViews := dataViews else Normal viewModel in
  let? dataView0 := dataViews !! 0 else Normal viewModel in
  let? categorical := DataView.categorical dataView0 else Normal viewModel in
  let? categories := DataViewCategorical.categories categorical
    else Normal viewModel in
  let? category := categories !! 0
    else Throw (TypeError "Cannot read property 'source' of undefined") in
  let? _ := DataViewCategoryColumn.source category else Normal viewModel in
  let? values := DataViewCategorical.values categorical
    else Normal viewModel in
  let dataValue := values !! 0 in
  let colorPalette := IVisualHost.colorPalette host in
  let objects := DataViewMetadata.objects (DataView.metadata dataView0) in
  let strokeColor := getColumnStrokeColor colorPalette in
  let barChartSettings := barChartSettings objects colorPalette strokeColor in
  let strokeWidth := getColumnStrokeWidth (isHighContrast colorPalette) in
  let? dataValue := dataValue
    else Throw (TypeError "Cannot read property 'values' of undefined") in
  let len :=
    Nat.max (length (DataViewCategoryColumn.values category))
      (length (DataViewValueColumn.values dataValue)) in
  let barChartDataPoints :=
    forPush (dataPointAt host category dataValue strokeColor strokeWidth)
      len 0 [] in
  let dataMax := DataViewValueColumn.maxLocal dataValue in
  Normal {|
    BarChartViewModel.dataPoints := barChartDataPoints;
    BarChartViewModel.dataMax := dataMax;
    BarChartViewModel.settings := Some barChartSettings;
  |}.

End VisualTransform.

(** ** The rendered bars and their selection state *)

(** [BarChart.Config] *)
Module Config.
Record margins_t : Type := { top : float; right : float; bottom : float; left : float }.
Definition xScalePadding : float := 0.1.
Definition solidOpacity : float := 1.
Definition transparentOpacity : float := 0.4.
Definition margins : margins_t :=
  {| top := 0; right := 0; bottom := 25; left := 30 |}.
Definition xAxisFontMultiplier : float := 0.04.
End Config.

(** A value handed to [style]; the inline style of an element maps property
    names to the values set, and holds no entry for a property that was
    never set or was removed. *)
Inductive StyleValue : Type :=
| StyleNumber (n : float)
| StyleString (s : string).

(** A [rect] of the bar container with the datum bound to it. *)
Module Bar.
Record t `{HostRuntime} : Type := {
  datum : BarChartDataPoint.t;
  style : gmap string StyleValue;
}.
End Bar.

Section Selection.
Context `{HostRuntime}.

(** [d3.select(node).style(name, value)]: a [null] value removes the
    property. *)
Definition setStyle (name : string) (value : option StyleValue)
    (node : Bar.t) : Bar.t :=
  {|
    Bar.datum := Bar.datum node;
    Bar.style :=
      match value with
      | Some v => <[name := v]> (Bar.style node)
      | None => delete name (Bar.style node)
      end;
  |}.

(** [d3.select(node).style({ name: value, ... })], members in order. *)
Definition setStyles (properties : list (string * option StyleValue))
    (node : Bar.t) : Bar.t :=
  foldl (fun node property => setStyle property.1 property.2 node)
    node properties.

(** [selection.style({...})] and [selection.each(...)] visit every node. *)
Definition selection_style (properties : list (string * option StyleValue))
    (selection : list Bar.t) : list Bar.t :=
  setStyles properties <$> selection.

Definition selection_each (callback : Bar.t -> Bar.t)
    (selection : list Bar.t) : list Bar.t :=
  callback <$> selection.

Definition isSelectionIdInArray (selectionIds : option (list ISelectionId))
    (selectionId : option ISelectionId) : bool :=
  match selectionIds, selectionId with
  | Some selectionIds, Some selectionId =>
      existsb (fun currentSelectionId =>
                 includes currentSelectionId selectionId)
        selectionIds
  | _, _ => false
  end.

(** The method returns nothing; the result here is the selection with the
    styles of its nodes after the call. *)
Definition syncSelectionState (selection : option (list Bar.t))
    (selectionIds : option (list ISelectionId)) : option (list Bar.t) :=
  match selection, selectionIds with
  | Some selection, Some selectionIds =>
      if Nat.eqb (length selectionIds) 0 then
        Some (selection_style
                [("fill-opacity", None); ("stroke-opacity", None)]
                selection)
      else
        Some (selection_each
                (fun node =>
                   let barDataPoint := Bar.datum node in
                   let isSelected :=
                     isSelectionIdInArray (Some selectionIds)
                       (Some (BarChartDataPoint.selectionId barDataPoint)) in
                   let opacity :=
                     if isSelected then Config.solidOpacity
                     else Config.transparentOpacity in
                   setStyles
                     [("fill-opacity", Some (StyleNumber opacity));
                      ("stroke-opacity", Some (StyleNumber opacity))]
                     node)
                selection)
  | _, _ => selection
  end.

End Selection.

(** ** Vocabulary of the properties *)

Section Vocabulary.
Context `{HostRuntime}.

(** The data view passes the guard at the head of [visualTransform]: every
    operand of the [||] chain is falsy, and none of them throws.  The data
    view, its first category column and its array of value columns are
    named for later use. *)
Definition passesGuard (options : VisualUpdateOptions.t)
    (dataView : DataView.t) (category : DataViewCategoryColumn.t)
    (values : list DataViewValueColumn.t) : Prop :=
  ∃ dataViews categorical categories source,
    VisualUpdateOptions.dataViews options = Some dataViews
    ∧ dataViews !! 0 = Some dataView
    ∧ DataView.categorical dataView = Some categorical
    ∧ DataViewCategorical.categories categorical = Some categories
    ∧ categories !! 0 = Some category
    ∧ DataViewCategoryColumn.source category = Some source
    ∧ DataViewCategorical.values categorical = Some values.

(** The view model [visualTransform] starts from and returns on
    degenerate input. *)
Definition emptyViewModel : BarChartViewModel.t := {|
  BarChartViewModel.dataPoints := [];
  BarChartViewModel.dataMax := PNumber 0;
  BarChartViewModel.settings := None;
|}.

(** The rows of the view model built from the first category column and
    the first value column. *)
Definition rows (host : IVisualHost.t) (category : DataViewCategoryColumn.t)
    (dataValue : DataViewValueColumn.t) : list BarChartDataPoint.t :=
  let colorPalette := IVisualHost.colorPalette host in
  dataPointAt host category dataValue (getColumnStrokeColor colorPalette)
    (getColumnStrokeWidth (isHighContrast colorPalette))
  <$> seq 0 (Nat.max (length (DataViewCategoryColumn.values category))
               (length (DataViewValueColumn.values dataValue))).

(** [m] is the largest value across the series of data-point values. *)
Definition largestValue (dataPoints : list BarChartDataPoint.t)
    (m : PrimitiveValue) : Prop :=
  (∃ dataPoint, dataPoint ∈ dataPoints ∧ BarChartDataPoint.value dataPoint = m)
  ∧ ∃ top, m = PNumber top
    ∧ ∀ dataPoint n, dataPoint ∈ dataPoints →
        BarChartDataPoint.value dataPoint = PNumber n →
        PrimFloat.leb n top = true.

(** The per-row [colorSelector] fill of row [index], when the category
    column carries one. *)
Definition colorSelectorFill (category : DataViewCategoryColumn.t)
    (index : nat) : option Fill.t :=
  rowOverride category index "colorSelector" "fill" ≫= ofPropertyValue.

(** An input restricted to its first data view, and that one to its first
    category column and its first value column. *)
Definition firstColumnsOnly (options : VisualUpdateOptions.t)
    : VisualUpdateOptions.t := {|
  VisualUpdateOptions.dataViews :=
    fmap (M := option)
      (fun dataViews =>
         (fun dataView => {|
            DataView.metadata := DataView.metadata dataView;
            DataView.categorical :=
              fmap (M := option)
                (fun categorical => {|
                   DataViewCategorical.categories :=
                     take 1 <$> DataViewCategorical.categories categorical;
                   DataViewCategorical.values :=
                     take 1 <$> DataViewCategorical.values categorical;
                 |})
                (DataView.categorical dataView);
          |}) <$> take 1 dataViews)
      (VisualUpdateOptions.dataViews options);
|}.

(** The selection set contains the token, by the token's own containment
    test. *)
Definition containedIn (selectionIds : list ISelectionId)
    (selectionId : ISelectionId) : Prop :=
  ∃ currentSelectionId,
    currentSelectionId ∈ selectionIds
    ∧ includes currentSelectionId selectionId = true.

End Vocabulary.

(** *** The members of the settings, one by one *)

Inductive CardMember : Type :=
| card_show | card_displayName | card_unboundIntegerProperty
| card_boundIntegerProperty | card_unboundNumericProperty
| card_boundNumericProperty | card_booleanProperty | card_textProperty
| card_specialEnumeration | card_colorProperty | card_nullableColorProperty
| card_formattingLableDisplayUnitsProperty | card_formattingAlignmentProperty
| card_formattingFontSizeProperty.

Inductive SettingsField : Type :=
| enableAxis_show | enableAxis_fill
| generalView_opacity | generalView_showBugBashData
| generalView_showHelpLink | generalView_helpLinkColor
| generalView_specialEnumeration
| testAnalyticsProperty_show | testAnalyticsProperty_displayName
| testAnalyticsProperty_opacity | testAnalyticsProperty_showHelpLink
| testAnalyticsProperty_helpLinkColor | testAnalyticsProperty_specialEnumeration
| analytics (member : CardMember)
| formatting (member : CardMember).

Definition cardMemberName (member : CardMember) : string :=
  match member with
  | card_show => "show"
  | card_displayName => "displayName"
  | card_unboundIntegerProperty => "unboundIntegerProperty"
  | card_boundIntegerProperty => "boundIntegerProperty"
  | card_unboundNumericProperty => "unboundNumericProperty"
  | card_boundNumericProperty => "boundNumericProperty"
  | card_booleanProperty => "booleanProperty"
  | card_textProperty => "textProperty"
  | card_specialEnumeration => "specialEnumeration"
  | card_colorProperty => "colorProperty"
  | card_nullableColorProperty => "nullableColorProperty"
  | card_formattingLableDisplayUnitsProperty =>
      "formattingLableDisplayUnitsProperty"
  | card_formattingAlignmentProperty => "formattingAlignmentProperty"
  | card_formattingFontSizeProperty => "formattingFontSizeProperty"
  end.

(** The section and member names of a field in the objects map. *)
Definition objectName (field : SettingsField) : string :=
  match field with
  | enableAxis_show | enableAxis_fill => "enableAxis"
  | generalView_opacity | generalView_showBugBashData
  | generalView_showHelpLink | generalView_helpLinkColor
  | generalView_specialEnumeration => "generalView"
  | testAnalyticsProperty_show | testAnalyticsProperty_displayName
  | testAnalyticsProperty_opacity | testAnalyticsProperty_showHelpLink
  | testAnalyticsProperty_helpLinkColor
  | testAnalyticsProperty_specialEnumeration => "testAnalyticsProperty"
  | analytics _ => "CardWithManyPropertiesAnalytics"
  | formatting _ => "CardWithManyPropertiesFormatting"
  end.

Definition propertyName (field : SettingsField) : string :=
  match field with
  | enableAxis_show | testAnalyticsProperty_show => "show"
  | enableAxis_fill => "fill"
  | generalView_opacity | testAnalyticsProperty_opacity => "opacity"
  | generalView_showBugBashData => "showBugBashData"
  | generalView_showHelpLink | testAnalyticsProperty_showHelpLink =>
      "showHelpLink"
  | generalView_helpLinkColor | testAnalyticsProperty_helpLinkColor =>
      "helpLinkColor"
  | generalView_specialEnumeration
  | testAnalyticsProperty_specialEnumeration => "specialEnumeration"
  | testAnalyticsProperty_displayName => "displayName"
  | analytics member | formatting member => cardMemberName member
  end.

Definition isHelpLinkColor (field : SettingsField) : bool :=
  match field with
  | generalView_helpLinkColor | testAnalyticsProperty_helpLinkColor => true
  | _ => false
  end.

(** The value a settings object holds in a member. *)
Inductive SettingValue : Type :=
| BooleanSetting (b : bool)
| NumberSetting (n : float)
| TextSetting (s : string)
| NullableTextSetting (s : option string)
| EnumSetting (e : specialValsEnum).

Definition cardMember (card : CardWithManyProperties.t) (member : CardMember)
    : SettingValue :=
  match member with
  | card_show => BooleanSetting (CardWithManyProperties.show card)
  | card_displayName => TextSetting (CardWithManyProperties.displayName card)
  | card_unboundIntegerProperty =>
      NumberSetting (CardWithManyProperties.unboundIntegerProperty card)
  | card_boundIntegerProperty =>
      NumberSetting (CardWithManyProperties.boundIntegerProperty card)
  | card_unboundNumericProperty =>
      NumberSetting (CardWithManyProperties.unboundNumericProperty card)
  | card_boundNumericProperty =>
      NumberSetting (CardWithManyProperties.boundNumericProperty card)
  | card_booleanProperty =>
      BooleanSetting (CardWithManyProperties.booleanProperty card)
  | card_textProperty => TextSetting (CardWithManyProperties.textProperty card)
  | card_specialEnumeration =>
      EnumSetting (CardWithManyProperties.specialEnumeration card)
  | card_colorProperty =>
      TextSetting (CardWithManyProperties.colorProperty card)
  | card_nullableColorProperty =>
      TextSetting (CardWithManyProperties.nullableColorProperty card)
  | card_formattingLableDisplayUnitsProperty =>
      NumberSetting
        (CardWithManyProperties.formattingLableDisplayUnitsProperty card)
  | card_formattingAlignmentProperty =>
      TextSetting (CardWithManyProperties.formattingAlignmentProperty card)
  | card_formattingFontSizeProperty =>
      NumberSetting (CardWithManyProperties.formattingFontSizeProperty card)
  end.

Definition member (settings : BarChartSettings) (field : SettingsField)
    : SettingValue :=
  match field with
  | enableAxis_show => BooleanSetting (EnableAxis.show (enableAxis settings))
  | enableAxis_fill => TextSetting (EnableAxis.fill (enableAxis settings))
  | generalView_opacity =>
      NumberSetting (GeneralView.opacity (generalView settings))
  | generalView_showBugBashData =>
      BooleanSetting (GeneralView.showBugBashData (generalView settings))
  | generalView_showHelpLink =>
      BooleanSetting (GeneralView.showHelpLink (generalView settings))
  | generalView_helpLinkColor =>
      NullableTextSetting (GeneralView.helpLinkColor (generalView settings))
  | generalView_specialEnumeration =>
      EnumSetting (GeneralView.specialEnumeration (generalView settings))
  | testAnalyticsProperty_show =>
      BooleanSetting
        (TestAnalyticsProperty.show (testAnalyticsProperty settings))
  | testAnalyticsProperty_displayName =>
      TextSetting
        (TestAnalyticsProperty.displayName (testAnalyticsProperty settings))
  | testAnalyticsProperty_opacity =>
      NumberSetting
        (TestAnalyticsProperty.opacity (testAnalyticsProperty settings))
  | testAnalyticsProperty_showHelpLink =>
      BooleanSetting
        (TestAnalyticsProperty.showHelpLink (testAnalyticsProperty settings))
  | testAnalyticsProperty_helpLinkColor =>
      NullableTextSetting
        (TestAnalyticsProperty.helpLinkColor (testAnalyticsProperty settings))
  | testAnalyticsProperty_specialEnumeration =>
      EnumSetting
        (TestAnalyticsProperty.specialEnumeration
           (testAnalyticsProperty settings))
  | analytics m => cardMember (CardWithManyPropertiesAnalytics settings) m
  | formatting m => cardMember (CardWithManyPropertiesFormatting settings) m
  end.

(** ** Concrete hosts and inputs *)

(** A runtime for concrete evaluations: a selection identity is the row
    number it was built for, one identity includes another when they name
    the same row, and numbers and dates (absent from the inputs below)
    print as a fixed text. *)
Definition rowRuntime : HostRuntime := {|
  ISelectionId := nat;
  ISelectionIdBuilder := nat;
  withCategory := fun _ _ i => i;
  createSelectionId := fun builder => builder;
  includes := Nat.eqb;
  numberToString := fun _ => "0";
  dateToString := fun _ => "Thu Jan 01 1970";
|}.

Module Sample.
#[local] Existing Instance rowRuntime.

Definition palette (isHighContrast : bool) : ISandboxExtendedColorPalette.t := {|
  isHighContrast := isHighContrast;
  foreground := {| IColorInfo.value := "#FFFFFF" |};
  background := {| IColorInfo.value := "#000000" |};
  getColor := fun key =>
    {| IColorInfo.value := if String.eqb key "A" then "#01B8AA" else "#374649" |};
|}.

Definition host (isHighContrast : bool) : IVisualHost.t := {|
  IVisualHost.colorPalette := palette isHighContrast;
  IVisualHost.createSelectionIdBuilder := 0;
|}.

Definition fillValue (color : string) : DataViewPropertyValue :=
  FillValue {| Fill.solid := {| Fill.color := color |} |}.

(** The user has set the axis colour, the help-link colour and the bar
    opacity. *)
Definition objects : DataViewObjects :=
  {[ "enableAxis" := {[ "fill" := fillValue "#FF0000" ]};
     "generalView" :=
       {[ "opacity" := Primitive (PNumber 50);
          "helpLinkColor" := Primitive (PString "#00FF00") ]} ]}.

(** Three categories; the user has coloured the second one. *)
Definition category : DataViewCategoryColumn.t := {|
  DataViewCategoryColumn.source :=
    Some {| DataViewMetadataColumn.displayName := "Category" |};
  DataViewCategoryColumn.values := [PString "A"; PString "B"; PString "C"];
  DataViewCategoryColumn.objects :=
    Some [None; Some {[ "colorSelector" := {[ "fill" := fillValue "#123456" ]} ]}];
|}.

(** Two values only, and a host aggregate that is not their maximum. *)
Definition dataValue : DataViewValueColumn.t := {|
  DataViewValueColumn.values := [PNumber 5; PNumber 7];
  DataViewValueColumn.maxLocal := PNumber 100;
|}.

Definition otherCategory : DataViewCategoryColumn.t := {|
  DataViewCategoryColumn.source := None;
  DataViewCategoryColumn.values := [PString "X"];
  DataViewCategoryColumn.objects := None;
|}.

Definition otherValue : DataViewValueColumn.t := {|
  DataViewValueColumn.values := [PNumber 1; PNumber 2; PNumber 3; PNumber 4];
  DataViewValueColumn.maxLocal := PNumber 4;
|}.

Definition dataView (objects : option DataViewObjects)
    (categories : option (list DataViewCategoryColumn.t))
    (values : option (list DataViewValueColumn.t)) : DataView.t := {|
  DataView.metadata := {| DataViewMetadata.objects := objects |};
  DataView.categorical :=
    Some {| DataViewCategorical.categories := categories;
            DataViewCategorical.values := values |};
|}.

Definition update (dataView : DataView.t) : VisualUpdateOptions.t :=
  {| VisualUpdateOptions.dataViews := Some [dataView] |}.

(** Overrides present, two category and two value columns. *)
Definition options : VisualUpdateOptions.t :=
  update (dataView (Some objects) (Some [category; otherCategory])
            (Some [dataValue; otherValue])).

(** No override at all. *)
Definition plainOptions : VisualUpdateOptions.t :=
  update (dataView None (Some [category]) (Some [dataValue])).

Definition dataPoint (selectionId : nat) : BarChartDataPoint.t := {|
  BarChartDataPoint.value := PNumber 5;
  BarChartDataPoint.category := "A";
  BarChartDataPoint.color := "#01B8AA";
  BarChartDataPoint.strokeColor := None;
  BarChartDataPoint.strokeWidth := 0;
  BarChartDataPoint.selectionId := selectionId;
|}.

(** Two bars drawn at half opacity, for the rows 0 and 1. *)
Definition bars : list Bar.t :=
  (fun row => {|
     Bar.datum := dataPoint row;
     Bar.style :=
       {[ "fill" := StyleString "#01B8AA";
          "fill-opacity" := StyleNumber 0.5;
          "stroke-opacity" := StyleNumber 0.5 ]};
   |}) <$> [0; 1].
End Sample.

(** ** The bars as [update] styles them *)

Section UpdateStyles.
Context `{HostRuntime}.

(** The [style] call of [update] on the bar selection: the opacity given
    to every bar, and the fill, stroke and stroke width of each bar's own
    data point; a [null] stroke colour removes the property.  (The [attr]
    call before it sets attributes, not styles.) *)
Definition update_style (opacity : float) (selection : list Bar.t)
    : list Bar.t :=
  selection_each
    (fun node =>
       let dataPoint := Bar.datum node in
       setStyles
         [("fill-opacity", Some (StyleNumber opacity));
          ("stroke-opacity", Some (StyleNumber opacity));
          ("fill", Some (StyleString (BarChartDataPoint.color dataPoint)));
          ("stroke", StyleString <$> BarChartDataPoint.strokeColor dataPoint);
          ("stroke-width",
           Some (StyleString
                   (templateString
                      (PNumber (BarChartDataPoint.strokeWidth dataPoint))
                    +:+ "px")))]
         node)
    selection.

(** [const opacity = viewModel.settings.generalView.opacity / 100] *)
Definition update_opacity (settings : BarChartSettings) : float :=
  PrimFloat.div (GeneralView.opacity (generalView settings)) 100.

End UpdateStyles.

(** ** The formatting pane: [enumerateObjectInstances] *)

Module NumberRange.
Record t : Type := { min : float; max : float }.
End NumberRange.

(** [validValues] maps a member to [{ numberRange: { min, max } }]; an
    instance written without [displayName] or [validValues] has none. *)
Module VisualObjectInstance.
Record t {Selector : Type} : Type := {
  objectName : string;
  displayName : option string;
  properties : DataViewObject;
  validValues : option (gmap string NumberRange.t);
  selector : option Selector;
}.
Arguments t : clear implicits.
End VisualObjectInstance.

Module EnumerateVisualObjectInstancesOptions.
Record t : Type := { objectName : string }.
End EnumerateVisualObjectInstancesOptions.

(** The number a member of the numeric [enum] is at run time. *)
Definition specialValsEnum_number (e : specialValsEnum) : float :=
  match e with coffee => 0 | warning => 1 | musicalNote => 2 end.

Definition booleanValue (b : bool) : DataViewPropertyValue :=
  Primitive (PBoolean b).
Definition numberValue (n : float) : DataViewPropertyValue :=
  Primitive (PNumber n).
Definition textValue (s : string) : DataViewPropertyValue :=
  Primitive (PString s).
Definition enumValue (e : specialValsEnum) : DataViewPropertyValue :=
  Primitive (PNumber (specialValsEnum_number e)).

(** The properties enumerated for either card section. *)
Definition cardProperties (card : CardWithManyProperties.t) : DataViewObject :=
  list_to_map [
    ("show", booleanValue (CardWithManyProperties.show card));
    ("displayName", textValue (CardWithManyProperties.displayName card));
    ("unboundIntegerProperty",
     numberValue (CardWithManyProperties.unboundIntegerProperty card));
    ("boundIntegerProperty",
     numberValue (CardWithManyProperties.boundIntegerProperty card));
    ("unboundNumericProperty",
     numberValue (CardWithManyProperties.unboundNumericProperty card));
    ("boundNumericProperty",
     numberValue (CardWithManyProperties.boundNumericProperty card));
    ("booleanProperty",
     booleanValue (CardWithManyProperties.booleanProperty card));
    ("textProperty", textValue (CardWithManyProperties.textProperty card));
    ("specialEnumeration",
     enumValue (CardWithManyProperties.specialEnumeration card));
    ("colorProperty", textValue (CardWithManyProperties.colorProperty card));
    ("nullableColorProperty",
     textValue (CardWithManyProperties.nullableColorProperty card));
    ("formattingLableDisplayUnitsProperty",
     numberValue
       (CardWithManyProperties.formattingLableDisplayUnitsProperty card));
    ("formattingAlignmentProperty",
     textValue (CardWithManyProperties.formattingAlignmentProperty card));
    ("formattingFontSizeProperty",
     numberValue (CardWithManyProperties.formattingFontSizeProperty card))
  ].

Definition cardValidValues : gmap string NumberRange.t :=
  list_to_map [
    ("boundIntegerProperty", {| NumberRange.min := 10; NumberRange.max := 100 |});
    ("boundNumericProperty", {| NumberRange.min := 0; NumberRange.max := 100 |});
    ("formattingFontSizeProperty",
     {| NumberRange.min := 8; NumberRange.max := 40 |})
  ].

Section Enumerate.
Context `{HostRuntime} {Selector : Type}.

(** [selectionId.getSelector()], a method of the host's identities. *)
Variable getSelector : ISelectionId -> Selector.

(** Reading a section of [this.barChartSettings] and then a first member
    of it: the field is [undefined] before the first [update] ([None]), and
    the empty object after an [update] on degenerate input ([Some None]). *)
Definition readSettings (barChartSettings : option (option BarChartSettings))
    (section firstMember : string) : Completion BarChartSettings :=
  match barChartSettings with
  | None =>
      Throw (TypeError ("Cannot read property '" +:+ section +:+ "' of undefined"))
  | Some None =>
      Throw (TypeError
               ("Cannot read property '" +:+ firstMember +:+ "' of undefined"))
  | Some (Some settings) => Normal settings
  end.

(** [for (let item of array) { ....push(body item) }] *)
Definition forOfPush {A B : Type} (body : A -> B) (array : list A) : list B :=
  foldl (fun pushed item => pushed ++ [body item]) [] array.

Definition enumerateObjectInstances
    (barChartSettings : option (option BarChartSettings))
    (barDataPoints : option (list BarChartDataPoint.t))
    (options : EnumerateVisualObjectInstancesOptions.t)
    : Completion (list (VisualObjectInstance.t Selector)) :=
  let objectName := EnumerateVisualObjectInstancesOptions.objectName options in
  let settingsInstance properties validValues := {|
    VisualObjectInstance.objectName := objectName;
    VisualObjectInstance.displayName := None;
    VisualObjectInstance.properties := properties;
    VisualObjectInstance.validValues := validValues;
    VisualObjectInstance.selector := None;
  |} in
  if decide (objectName = "enableAxis") then
    match readSettings barChartSettings "enableAxis" "show" with
    | Throw e => Throw e
    | Normal settings =>
        Normal [settingsInstance
                  (list_to_map [
                     ("show", booleanValue (EnableAxis.show (enableAxis settings)));
                     ("fill", textValue (EnableAxis.fill (enableAxis settings)))
                   ])
                  None]
    end
  else if decide (objectName = "colorSelector") then
    match barDataPoints with
    | None => Throw (TypeError "Cannot read property 'length' of undefined")
    | Some barDataPoints =>
        Normal
          (forOfPush
             (fun barDataPoint => {|
                VisualObjectInstance.objectName := objectName;
                VisualObjectInstance.displayName :=
                  Some (BarChartDataPoint.category barDataPoint);
                VisualObjectInstance.properties :=
                  {[ "fill" :=
                       FillValue
                         {| Fill.solid :=
                              {| Fill.color :=
                                   BarChartDataPoint.color barDataPoint |} |} ]};
                VisualObjectInstance.validValues := None;
                VisualObjectInstance.selector :=
                  Some (getSelector
                          (BarChartDataPoint.selectionId barDataPoint));
              |})
             barDataPoints)
    end
  else if decide (objectName = "generalView") then
    match readSettings barChartSettings "generalView" "opacity" with
    | Throw e => Throw e
    | Normal settings =>
        let generalView := generalView settings in
        Normal [settingsInstance
                  (list_to_map [
                     ("opacity", numberValue (GeneralView.opacity generalView));
                     ("showBugBashData",
                      booleanValue (GeneralView.showBugBashData generalView));
                     ("showHelpLink",
                      booleanValue (GeneralView.showHelpLink generalView));
                     ("specialEnumeration",
                      enumValue (GeneralView.specialEnumeration generalView))
                   ])
                  (Some {[ "opacity" :=
                             {| NumberRange.min := 10;
                                NumberRange.max := 100 |} ]})]
    end
  else if decide (objectName = "testAnalyticsProperty") then
    match readSettings barChartSettings "testAnalyticsProperty" "show" with
    | Throw e => Throw e
    | Normal settings =>
        let section := testAnalyticsProperty settings in
        Normal [settingsInstance
                  (list_to_map [
                     ("show", booleanValue (TestAnalyticsProperty.show section));
                     ("displayName",
                      textValue (TestAnalyticsProperty.displayName section));
                     ("opacity",
                      numberValue (TestAnalyticsProperty.opacity section));
                     ("showHelpLink",
                      booleanValue (TestAnalyticsProperty.showHelpLink section));
                     ("specialEnumeration",
                      enumValue
                        (TestAnalyticsProperty.specialEnumeration section))
                   ])
                  (Some {[ "opacity" :=
                             {| NumberRange.min := 10;
                                NumberRange.max := 100 |} ]})]
    end
  else if decide (objectName = "CardWithManyPropertiesAnalytics") then
    match readSettings barChartSettings "CardWithManyPropertiesAnalytics" "show"
    with
    | Throw e => Throw e
    | Normal settings =>
        Normal [settingsInstance
                  (cardProperties (CardWithManyPropertiesAnalytics settings))
                  (Some cardValidValues)]
    end
  else if decide (objectName = "CardWithManyPropertiesFormatting") then
    match readSettings barChartSettings "CardWithManyPropertiesFormatting" "show"
    with
    | Throw e => Throw e
    | Normal settings =>
        Normal [settingsInstance
                  (cardProperties (CardWithManyPropertiesFormatting settings))
                  (Some cardValidValues)]
    end
  else Normal [].

End Enumerate.

(** ** Tooltips: [getTooltipData] *)

Module VisualTooltipDataItem.
Record t : Type := {
  displayName : string;
  value : string;
  color : string;
  header : option string;
}.
End VisualTooltipDataItem.

Section Tooltip.
Context `{HostRuntime}.

(** [getLocalizedString(locale, key)], which [barChart.ts] calls and does
    not define: the text for the key, or [undefined]. *)
Variable getLocalizedString : string -> string -> option string.

(** [v.toString()]: a method call, which [undefined] and [null] do not
    have. *)
Definition toString (v : PrimitiveValue) : Completion string :=
  match v with
  | PUndefined =>
      Throw (TypeError "Cannot read property 'toString' of undefined")
  | PNull => Throw (TypeError "Cannot read property 'toString' of null")
  | PBoolean true => Normal "true"
  | PBoolean false => Normal "false"
  | PNumber n => Normal (numberToString n)
  | PString s => Normal s
  | PDate time => Normal (dateToString time)
  end.

(** [language && "displayed language " + language]: a falsy [language]
    ([undefined] or the empty string) is the result itself. *)
Definition tooltipHeader (language : option string) : option string :=
  match language with
  | None => None
  | Some language =>
      if decide (language = "") then Some language
      else Some ("displayed language " +:+ language)
  end.

Definition getTooltipData (locale : string) (value : BarChartDataPoint.t)
    : Completion (list VisualTooltipDataItem.t) :=
  let language := getLocalizedString locale "LanguageKey" in
  match toString (BarChartDataPoint.value value) with
  | Throw e => Throw e
  | Normal text =>
      Normal [{|
        VisualTooltipDataItem.displayName := BarChartDataPoint.category value;
        VisualTooltipDataItem.value := text;
        VisualTooltipDataItem.color := BarChartDataPoint.color value;
        VisualTooltipDataItem.header := tooltipHeader language;
      |}]
  end.

End Tooltip.

(** ** The landing page: [HandleLandingPage] *)

(** What a listener of the page does when it fires. *)
Inductive Listener : Type :=
| LaunchUrl (url : string).

(** A DOM element: the identity [document.createElement] gave it, its tag,
    the attributes and text content set on it, its listeners by event
    type, and its children in order. *)
#[warnings="-register-all"]
Inductive Element : Type :=
| Node (nodeId : nat) (tagName : string) (attributes : list (string * string))
    (textContent : option string) (listeners : list (string * Listener))
    (childNodes : list Element).

Definition nodeId (node : Element) : nat :=
  match node with Node nodeId _ _ _ _ _ => nodeId end.

(** The fields of the visual that [HandleLandingPage] reads and writes,
    with the children of [this.element] and the number of elements the
    document has created so far.  A flag that was never written is
    [undefined], which tests as [false]. *)
Module LandingPageFields.
Record t : Type := {
  element : list Element;
  isLandingPageOn : bool;
  LandingPageRemoved : bool;
  LandingPage : option Element;
  created : nat;
}.
End LandingPageFields.

(** [createSampleLandingPage]: a [div] holding a heading and a link, each a
    newly created element; the result comes with the new count of created
    elements. *)
Definition createSampleLandingPage (created : nat) : Element * nat :=
  let div := created in
  let header := S created in
  let p1 := S (S created) in
  (Node div "div" [] None []
     [Node header "h1" [("class", "LandingPage")]
        (Some "Sample Bar Chart Landing Page") [] [];
      Node p1 "a" [("class", "LandingPageHelpLink")]
        (Some "Learn more about Landing page")
        [("click",
          LaunchUrl "https://microsoft.github.io/PowerBI-visuals/docs/overview/")]
        []],
   S (S (S created))).

(** [d3.select(node).remove()]: the node leaves its parent. *)
Definition removeChild (node : Element) (children : list Element)
    : list Element :=
  filter (fun child => nodeId child ≠ nodeId node) children.

(** [!options.dataViews || !options.dataViews.length] *)
Definition withoutData (options : VisualUpdateOptions.t) : bool :=
  match VisualUpdateOptions.dataViews options with
  | None => true
  | Some dataViews => Nat.eqb (length dataViews) 0
  end.

(** The fields after the call, and how the call completed. *)
Definition HandleLandingPage (options : VisualUpdateOptions.t)
    (this : LandingPageFields.t) : LandingPageFields.t * Completion unit :=
  if withoutData options then
    if negb (LandingPageFields.isLandingPageOn this) then
      let (SampleLandingPage, created) :=
        createSampleLandingPage (LandingPageFields.created this) in
      ({| LandingPageFields.element :=
            LandingPageFields.element this ++ [SampleLandingPage];
          LandingPageFields.isLandingPageOn := true;
          LandingPageFields.LandingPageRemoved :=
            LandingPageFields.LandingPageRemoved this;
          LandingPageFields.LandingPage := Some SampleLandingPage;
          LandingPageFields.created := created |},
       Normal ())
    else (this, Normal ())
  else
    if LandingPageFields.isLandingPageOn this
       && negb (LandingPageFields.LandingPageRemoved this)
    then
      let removed := {|
        LandingPageFields.element := LandingPageFields.element this;
        LandingPageFields.isLandingPageOn :=
          LandingPageFields.isLandingPageOn this;
        LandingPageFields.LandingPageRemoved := true;
        LandingPageFields.LandingPage := LandingPageFields.LandingPage this;
        LandingPageFields.created := LandingPageFields.created this |} in
      match LandingPageFields.LandingPage this with
      | None =>
          (removed,
           Throw (TypeError "Cannot read property 'remove' of undefined"))
      | Some LandingPage =>
          ({| LandingPageFields.element :=
                removeChild LandingPage (LandingPageFields.element this);
              LandingPageFields.isLandingPageOn :=
                LandingPageFields.isLandingPageOn this;
              LandingPageFields.LandingPageRemoved := true;
              LandingPageFields.LandingPage := Some LandingPage;
              LandingPageFields.created := LandingPageFields.created this |},
           Normal ())
      end
    else (this, Normal ()).

(** A series of updates, each handled in turn; it stops at a throw. *)
Fixpoint handleUpdates (updates : list VisualUpdateOptions.t)
    (this : LandingPageFields.t) : LandingPageFields.t * Completion unit :=
  match updates with
  | [] => (this, Normal ())
  | options :: later =>
      match HandleLandingPage options this with
      | (this', Normal _) => handleUpdates later this'
      | thrown => thrown
      end
  end.

(** The landing page is among the children of the host element. *)
Definition landingPageShown (this : LandingPageFields.t) : Prop :=
  ∃ page, LandingPageFields.LandingPage this = Some page
          ∧ page ∈ LandingPageFields.element this.

(** Where the visual stands, given the children the constructor left in
    the host element and the number of elements created by then: the page
    was never shown; or it is shown, as the last child; or it was shown and
    has been removed.  The page is the one [createSampleLandingPage] builds
    at that count. *)
Definition landingPageHistory (children : list Element) (created : nat)
    (this : LandingPageFields.t) : Prop :=
  let page := (createSampleLandingPage created).1 in
  (LandingPageFields.isLandingPageOn this = false
   ∧ LandingPageFields.LandingPageRemoved this = false
   ∧ LandingPageFields.LandingPage this = None
   ∧ LandingPageFields.element this = children
   ∧ LandingPageFields.created this = created)
  ∨ (LandingPageFields.isLandingPageOn this = true
     ∧ LandingPageFields.LandingPageRemoved this = false
     ∧ LandingPageFields.LandingPage this = Some page
     ∧ LandingPageFields.element this = children ++ [page])
  ∨ (LandingPageFields.isLandingPageOn this = true
     ∧ LandingPageFields.LandingPageRemoved this = true
     ∧ LandingPageFields.LandingPage this = Some page
     ∧ LandingPageFields.element this = children).

(** ** Vocabulary of the further properties *)

Section SelectionVocabulary.
Context `{HostRuntime}.

(** The opacity [syncSelectionState] leaves on a bar for a given array of
    selection identities: none for the empty array, else the solid or the
    transparent one. *)
Definition syncedOpacity (selectionIds : list ISelectionId) (node : Bar.t)
    : option StyleValue :=
  if Nat.eqb (length selectionIds) 0 then None
  else
    Some (StyleNumber
            (if isSelectionIdInArray (Some selectionIds)
                  (Some (BarChartDataPoint.selectionId (Bar.datum node)))
             then Config.solidOpacity
             else Config.transparentOpacity)).

End SelectionVocabulary.

(** A settings member as the value the formatting pane is given for it. *)
Definition paneValue (value : SettingValue) : DataViewPropertyValue :=
  match value with
  | BooleanSetting b => booleanValue b
  | NumberSetting n => numberValue n
  | TextSetting s => textValue s
  | NullableTextSetting (Some s) => textValue s
  | NullableTextSetting None => Primitive PNull
  | EnumSetting e => enumValue e
  end.

(** The object names [enumerateObjectInstances] has a case for. *)
Definition settingsSections : list string :=
  ["enableAxis"; "generalView"; "testAnalyticsProperty";
   "CardWithManyPropertiesAnalytics"; "CardWithManyPropertiesFormatting"].

(** ** Further concrete inputs *)

Module Scenario.
#[local] Existing Instance rowRuntime.

(** One category and three values. *)
Definition shortCategory : DataViewCategoryColumn.t := {|
  DataViewCategoryColumn.source :=
    Some {| DataViewMetadataColumn.displayName := "Category" |};
  DataViewCategoryColumn.values := [PString "A"];
  DataViewCategoryColumn.objects := None;
|}.

Definition longValues : VisualUpdateOptions.t :=
  Sample.update
    (Sample.dataView (Some Sample.objects) (Some [shortCategory])
       (Some [Sample.otherValue])).

(** A bar whose data point has the given value. *)
Definition dataPointWith (value : PrimitiveValue) : BarChartDataPoint.t := {|
  BarChartDataPoint.value := value;
  BarChartDataPoint.category := "C";
  BarChartDataPoint.color := "#374649";
  BarChartDataPoint.strokeColor := None;
  BarChartDataPoint.strokeWidth := 0;
  BarChartDataPoint.selectionId := 2;
|}.

(** The selector of a row identity is the row number. *)
Definition getSelector (selectionId : ISelectionId) : nat := selectionId.

Definition getLocalizedString (locale key : string) : option string :=
  if String.eqb locale "en-US" then Some "English" else None.

Definition named (objectName : string)
    : EnumerateVisualObjectInstancesOptions.t :=
  {| EnumerateVisualObjectInstancesOptions.objectName := objectName |}.

(** Fields before the first update: no flag set, and a host element that
    holds the help link and the diagnostic hook. *)
Definition constructed : LandingPageFields.t := {|
  LandingPageFields.element :=
    [Node 0 "a" [("title", "Open documentation"); ("class", "helpLink")]
       (Some "?")
       [("click",
         LaunchUrl "https://microsoft.github.io/PowerBI-visuals/tutorials/building-bar-chart/adding-url-launcher-element-to-the-bar-chart/")]
       [];
     Node 1 "div" [("class", "bugBashHook"); ("id", "bugBashHook")]
       (Some "bugBash data not populated yet. If this is unexpected, check for errors/bugs.")
       [] []];
  LandingPageFields.isLandingPageOn := false;
  LandingPageFields.LandingPageRemoved := false;
  LandingPageFields.LandingPage := None;
  LandingPageFields.created := 2;
|}.

Definition noData : VisualUpdateOptions.t :=
  {| VisualUpdateOptions.dataViews := Some [] |}.

(** The fields after an update without data and then one with data. *)
Definition dismissed : LandingPageFields.t :=
  (handleUpdates [noData; Sample.options] constructed).1.
End Scenario.

(** ** Proof steps for concrete inputs *)

(** Two numbers that differ, told apart by comparing them. *)
Ltac distinct_numbers H :=
  lazymatch type of H with
  | PNumber ?a = PNumber ?b =>
      let Heqb := fresh in
      pose proof
        (f_equal (fun v => match v with
                           | PNumber x => PrimFloat.eqb x b
                           | _ => false
                           end) H) as Heqb;
      vm_compute in Heqb; discriminate Heqb
  end.

(** An input passes the guard: each member the guard tests is read off. *)
Ltac guard_by_evaluation := do 4 eexists; repeat split; reflexivity.

(** * Properties of [visualTransform] *)

Section VisualTransformFacts.
Context `{HostRuntime}.

Import BarChartViewModel.

Lemma forPush_seq {A : Type} (body : nat -> A) (remaining i : nat)
    (array : list A) :
  forPush body remaining i array = array ++ (body <$> seq i remaining).
Proof.
  revert i array.
  induction remaining as [|remaining IH]; intros i array; simpl.
  - by rewrite app_nil_r.
  - by rewrite IH, <- app_assoc.
Qed.

Lemma visualTransform_rows options host dataView category values dataValue :
  passesGuard options dataView category values →
  values !! 0 = Some dataValue →
  visualTransform options host =
    Normal {|
      dataPoints := rows host category dataValue;
      dataMax := DataViewValueColumn.maxLocal dataValue;
      settings :=
        Some (barChartSettings
                (DataViewMetadata.objects (DataView.metadata dataView))
                (IVisualHost.colorPalette host)
                (getColumnStrokeColor (IVisualHost.colorPalette host)));
    |}.
Proof.
  intros (dataViews & categorical & categories & source
          & Hviews & Hview & Hcategorical & Hcategories & Hcategory
          & Hsource & Hvalues) HdataValue.
  unfold visualTransform.
  rewrite Hviews, Hview, Hcategorical, Hcategories, Hcategory, Hsource,
    Hvalues, HdataValue.
  by rewrite forPush_seq.
Qed.

(** A view model that was returned is the empty one, or was built from
    the columns of an input that passed the guard. *)
Lemma visualTransform_Normal options host viewModel :
  visualTransform options host = Normal viewModel →
  viewModel = emptyViewModel
  ∨ ∃ dataView category values dataValue,
      passesGuard options dataView category values
      ∧ values !! 0 = Some dataValue.
Proof.
  unfold visualTransform, passesGuard.
  destruct (VisualUpdateOptions.dataViews options) as [dataViews|] eqn:Hviews;
    [|intros [= <-]; by left].
  destruct (dataViews !! 0) as [dataView|] eqn:Hview;
    [|intros [= <-]; by left].
  destruct (DataView.categorical dataView) as [categorical|] eqn:Hcategorical;
    [|intros [= <-]; by left].
  destruct (DataViewCategorical.categories categorical)
    as [categories|] eqn:Hcategories; [|intros [= <-]; by left].
  destruct (categories !! 0) as [category|] eqn:Hcategory; [|done].
  destruct (DataViewCategoryColumn.source category) as [source|] eqn:Hsource;
    [|intros [= <-]; by left].
  destruct (DataViewCategorical.values categorical) as [values|] eqn:Hvalues;
    [|intros [= <-]; by left].
  destruct (values !! 0) as [dataValue|] eqn:HdataValue; [|done].
  intros _. right. exists dataView, category, values, dataValue.
  split; [|done]. by exists dataViews, categorical, categories, source.
Qed.

Lemma rows_length host category dataValue :
  length (rows host category dataValue) =
  Nat.max (length (DataViewCategoryColumn.values category))
    (length (DataViewValueColumn.values dataValue)).
Proof. unfold rows. by rewrite length_fmap, length_seq. Qed.

Lemma rows_lookup host category dataValue i :
  i < Nat.max (length (DataViewCategoryColumn.values category))
        (length (DataViewValueColumn.values dataValue)) →
  rows host category dataValue !! i =
  Some (dataPointAt host category dataValue
          (getColumnStrokeColor (IVisualHost.colorPalette host))
          (getColumnStrokeWidth
             (isHighContrast (IVisualHost.colorPalette host))) i).
Proof.
  intros Hi. unfold rows.
  by rewrite list_lookup_fmap, lookup_seq_lt.
Qed.

Lemma rows_elem_of host category dataValue dataPoint :
  dataPoint ∈ rows host category dataValue →
  ∃ i, dataPoint =
       dataPointAt host category dataValue
         (getColumnStrokeColor (IVisualHost.colorPalette host))
         (getColumnStrokeWidth
            (isHighContrast (IVisualHost.colorPalette host))) i.
Proof.
  unfold rows. intros (i & -> & _)%list_elem_of_fmap. by exists i.
Qed.

(** C1.  On an input that passes the degenerate-input guard, with
    [category] its category column and [dataValue] its value column,
    [visualTransform] returns a view model with exactly
    [max (length of the category column) (length of the value column)]
    data points; the point at position [i] is the one of row [i] (its
    category is the text of the [i]-th category, its value the [i]-th
    value, its identity the one built for row [i]); with columns of equal
    length [n] there are [n] points; and past the end of a shorter value
    column the value of a point is [undefined]. *)
Theorem dataPoints_follow_columns options host dataView category values
    dataValue :
  passesGuard options dataView category values →
  values !! 0 = Some dataValue →
  let categoryValues := DataViewCategoryColumn.values category in
  let dataValues := DataViewValueColumn.values dataValue in
  let len := Nat.max (length categoryValues) (length dataValues) in
  ∃ viewModel,
    visualTransform options host = Normal viewModel
    ∧ length (dataPoints viewModel) = len
    ∧ (∀ i : nat, i < len →
         ∃ dataPoint,
           dataPoints viewModel !! i = Some dataPoint
           ∧ BarChartDataPoint.category dataPoint =
               templateString (at_index categoryValues i)
           ∧ BarChartDataPoint.value dataPoint = at_index dataValues i
           ∧ BarChartDataPoint.selectionId dataPoint =
               createSelectionId
                 (withCategory (IVisualHost.createSelectionIdBuilder host)
                    category i))
    ∧ (length categoryValues = length dataValues →
         length (dataPoints viewModel) = length categoryValues)
    ∧ (∀ (i : nat) dataPoint,
         length dataValues ≤ i →
         dataPoints viewModel !! i = Some dataPoint →
         BarChartDataPoint.value dataPoint = PUndefined).
Proof.
  intros Hguard HdataValue categoryValues dataValues len.
  eexists. split; [by eapply visualTransform_rows|]. simpl.
  split; [apply rows_length|].
  split; [|split].
  - intros i Hi. eexists. split; [by apply rows_lookup|]. done.
  - intros Hsame. rewrite rows_length. fold categoryValues dataValues. lia.
  - intros i dataPoint Hshort Hlookup.
    assert (i < len) as Hi.
    { apply lookup_lt_Some in Hlookup. by rewrite rows_length in Hlookup. }
    rewrite rows_lookup in Hlookup by done.
    injection Hlookup as <-. simpl. unfold at_index.
    fold dataValues. by rewrite lookup_ge_None_2.
Qed.

End VisualTransformFacts.

Section ViewModelClaims.
Context `{HostRuntime}.

Import BarChartViewModel.

(** C2.  With the high-contrast flag of the palette set, every data point
    of a returned view model has stroke width 2, the palette background
    as bar fill and the palette foreground as stroke colour, and the
    resolved settings have the palette foreground as axis fill and as
    help-link colour, whatever the objects map and the per-row
    [colorSelector] hold; and on an input that passes the guard and has a
    value column such a view model, with resolved settings, is returned. *)
Theorem high_contrast_overrides options host :
  let colorPalette := IVisualHost.colorPalette host in
  isHighContrast colorPalette = true →
  (∀ viewModel,
     visualTransform options host = Normal viewModel →
     Forall (fun dataPoint =>
               BarChartDataPoint.strokeWidth dataPoint = 2%float
               ∧ BarChartDataPoint.color dataPoint =
                   IColorInfo.value (background colorPalette)
               ∧ BarChartDataPoint.strokeColor dataPoint =
                   Some (IColorInfo.value (foreground colorPalette)))
       (dataPoints viewModel)
     ∧ ∀ barChartSettings,
         settings viewModel = Some barChartSettings →
         EnableAxis.fill (enableAxis barChartSettings) =
           IColorInfo.value (foreground colorPalette)
         ∧ GeneralView.helpLinkColor (generalView barChartSettings) =
             Some (IColorInfo.value (foreground colorPalette))
         ∧ TestAnalyticsProperty.helpLinkColor
             (testAnalyticsProperty barChartSettings) =
             Some (IColorInfo.value (foreground colorPalette)))
  ∧ (∀ dataView category values dataValue,
       passesGuard options dataView category values →
       values !! 0 = Some dataValue →
       ∃ viewModel barChartSettings,
         visualTransform options host = Normal viewModel
         ∧ settings viewModel = Some barChartSettings
         ∧ length (dataPoints viewModel) =
             Nat.max (length (DataViewCategoryColumn.values category))
               (length (DataViewValueColumn.values dataValue))).
Proof.
  intros colorPalette Hcontrast. split.
  - intros viewModel Hreturn.
    destruct (visualTransform_Normal _ _ _ Hreturn)
      as [->|(dataView & category & values & dataValue & Hguard & Hvalue)].
    { split; [constructor|]. by intros barChartSettings [=]. }
    rewrite (visualTransform_rows _ _ _ _ _ _ Hguard Hvalue) in Hreturn.
    injection Hreturn as <-. simpl. split.
    + apply Forall_forall. intros dataPoint [i ->]%rows_elem_of. simpl.
      unfold getColumnColorByIndex, getColumnStrokeColor.
      fold colorPalette. by rewrite Hcontrast.
    + intros barChartSettings [= <-]. simpl.
      unfold getAxisTextFillColor, getColumnStrokeColor.
      fold colorPalette. by rewrite Hcontrast.
  - intros dataView category values dataValue Hguard Hvalue.
    do 2 eexists. split; [by eapply visualTransform_rows|].
    split; [done|]. apply rows_length.
Qed.

(** C3, as the code has it.  With high-contrast mode off, on an input that
    passes the guard and has a value column, every member of the resolved
    settings other than the two [helpLinkColor] members equals its
    compiled-in default when the objects map holds no override for it;
    the two [helpLinkColor] members are not read from the objects map nor
    from the defaults: they are [null]. *)
Theorem settings_default_without_override options host dataView category
    values dataValue :
  passesGuard options dataView category values →
  values !! 0 = Some dataValue →
  isHighContrast (IVisualHost.colorPalette host) = false →
  ∃ viewModel barChartSettings,
    visualTransform options host = Normal viewModel
    ∧ settings viewModel = Some barChartSettings
    ∧ (∀ field,
         isHelpLinkColor field = false →
         hostOverride (DataViewMetadata.objects (DataView.metadata dataView))
           (objectName field) (propertyName field) = None →
         member barChartSettings field = member defaultSettings field)
    ∧ (∀ field,
         isHelpLinkColor field = true →
         member barChartSettings field = NullableTextSetting None).
Proof.
  intros Hguard Hvalue Hcontrast.
  do 2 eexists. split; [by eapply visualTransform_rows|].
  split; [done|]. split.
  - intros field Hfield Habsent.
    destruct field as [| | | | | | | | | | | | | m | m];
      try discriminate Hfield; try destruct m;
      cbn in Habsent |- *;
      unfold getAxisTextFillColor, getValue;
      rewrite ?Hcontrast, Habsent; reflexivity.
  - intros field Hfield.
    destruct field; try discriminate Hfield;
      cbn; unfold getColumnStrokeColor; by rewrite Hcontrast.
Qed.

(** C4, as the code has it.  On an input that passes the guard and has a
    value column, [dataMax] of the view model is the [maxLocal] aggregate
    the host supplied with the first value column; it is not recomputed
    from the values. *)
Theorem dataMax_is_maxLocal options host dataView category values dataValue :
  passesGuard options dataView category values →
  values !! 0 = Some dataValue →
  ∃ viewModel,
    visualTransform options host = Normal viewModel
    ∧ dataMax viewModel = DataViewValueColumn.maxLocal dataValue.
Proof.
  intros Hguard Hvalue. eexists.
  split; [by eapply visualTransform_rows|done].
Qed.

(** Absent input is not an error: without data views, without a first
    data view, without [categorical], without a categories array, and
    with a first category column but without its [source] or without a
    values array, the empty view model is returned. *)
Lemma visualTransform_absent options host :
  VisualUpdateOptions.dataViews options = None
  ∨ VisualUpdateOptions.dataViews options = Some []
  ∨ (∃ dataView rest,
       VisualUpdateOptions.dataViews options = Some (dataView :: rest)
       ∧ (DataView.categorical dataView = None
          ∨ ∃ categorical,
              DataView.categorical dataView = Some categorical
              ∧ (DataViewCategorical.categories categorical = None
                 ∨ ∃ category others,
                     DataViewCategorical.categories categorical =
                       Some (category :: others)
                     ∧ (DataViewCategoryColumn.source category = None
                        ∨ DataViewCategorical.values categorical = None)))) →
  visualTransform options host = Normal emptyViewModel.
Proof.
  unfold visualTransform.
  intros [->|[->|(dataView & rest & -> & Hview)]]; [done..|]. simpl.
  destruct Hview as [->|(categorical & -> & Hcategorical)]; [done|].
  destruct Hcategorical as [->|(category & others & -> & Hcolumn)]; [done|].
  simpl. destruct Hcolumn as [->| ->]; [done|].
  by destruct (DataViewCategoryColumn.source category).
Qed.

(** C5, where the code departs from it.  A categories array that is
    present and empty is not caught by the guard: reading [source] from
    its missing first column throws, whatever else the input holds. *)
Theorem empty_categories_throw host metadata values rest :
  visualTransform
    {| VisualUpdateOptions.dataViews :=
         Some ({| DataView.metadata := metadata;
                  DataView.categorical :=
                    Some {| DataViewCategorical.categories := Some [];
                            DataViewCategorical.values := values |} |}
               :: rest) |}
    host
  = Throw (TypeError "Cannot read property 'source' of undefined").
Proof. reflexivity. Qed.

(** The guard does not look for a first value column either: with a
    values array that is present and empty, the guard is passed and the
    loop header throws on [dataValue.values]. *)
Lemma empty_values_throw options host dataView category :
  passesGuard options dataView category [] →
  visualTransform options host
  = Throw (TypeError "Cannot read property 'values' of undefined").
Proof.
  intros (dataViews & categorical & categories & source
          & Hviews & Hview & Hcategorical & Hcategories & Hcategory
          & Hsource & Hvalues).
  unfold visualTransform.
  by rewrite Hviews, Hview, Hcategorical, Hcategories, Hcategory, Hsource,
    Hvalues.
Qed.

(** C6.  On an input that passes the guard and has a value column, the
    bar colour of the data point at every index is the palette background
    in high-contrast mode; else the per-row [colorSelector] fill of that
    row when the category column carries one; else the colour the palette
    gives for the text of that row's category value. *)
Theorem bar_color_resolution options host dataView category values
    dataValue :
  passesGuard options dataView category values →
  values !! 0 = Some dataValue →
  let colorPalette := IVisualHost.colorPalette host in
  ∃ viewModel,
    visualTransform options host = Normal viewModel
    ∧ ∀ i : nat,
        i < Nat.max (length (DataViewCategoryColumn.values category))
              (length (DataViewValueColumn.values dataValue)) →
        ∃ dataPoint,
          dataPoints viewModel !! i = Some dataPoint
          ∧ BarChartDataPoint.color dataPoint =
              if isHighContrast colorPalette then
                IColorInfo.value (background colorPalette)
              else
                match colorSelectorFill category i with
                | Some fill => Fill.color (Fill.solid fill)
                | None =>
                    IColorInfo.value
                      (getColor colorPalette
                         (templateString
                            (at_index
                               (DataViewCategoryColumn.values category) i)))
                end.
Proof.
  intros Hguard Hvalue colorPalette. eexists.
  split; [by eapply visualTransform_rows|]. simpl.
  intros i Hi. eexists. split; [by apply rows_lookup|]. simpl.
  unfold getColumnColorByIndex, getCategoricalObjectValue, colorSelectorFill.
  fold colorPalette. destruct (isHighContrast colorPalette); [done|].
  destruct (rowOverride category i "colorSelector" "fill") as [property|];
    [|done].
  simpl. by destruct (ofPropertyValue property).
Qed.

(** C9.  Only the first data view, its first category column and its
    first value column are read: dropping every other data view and
    column changes neither the view model returned nor an error thrown. *)
Theorem only_first_columns_read options host :
  visualTransform options host
  = visualTransform (firstColumnsOnly options) host.
Proof.
  destruct options as [[[|[metadata [[[[|category others]|] values]|]] rest]|]];
    try reflexivity.
  unfold visualTransform; simpl.
  destruct (DataViewCategoryColumn.source category); [|done].
  by destruct values as [[|dataValue more]|].
Qed.

End ViewModelClaims.

(** * Properties of [syncSelectionState] *)

Section SelectionClaims.
Context `{HostRuntime}.

Lemma isSelectionIdInArray_containedIn selectionIds selectionId :
  isSelectionIdInArray (Some selectionIds) (Some selectionId) = true
  ↔ containedIn selectionIds selectionId.
Proof.
  unfold isSelectionIdInArray, containedIn. rewrite existsb_exists.
  split; intros (current & Hin & Hincludes); exists current;
    (split; [by apply list_elem_of_In|done]).
Qed.

Lemma setStyles_opacity value node :
  let node' :=
    setStyles [("fill-opacity", value); ("stroke-opacity", value)] node in
  Bar.datum node' = Bar.datum node
  ∧ Bar.style node' !! "fill-opacity" = value
  ∧ Bar.style node' !! "stroke-opacity" = value
  ∧ ∀ name, name ≠ "fill-opacity" → name ≠ "stroke-opacity" →
      Bar.style node' !! name = Bar.style node !! name.
Proof.
  destruct value as [v|]; simpl; (split; [done|]).
  - rewrite lookup_insert_ne, !lookup_insert_eq by done.
    split; [done|]. split; [done|]. intros name Hfill Hstroke.
    by rewrite !lookup_insert_ne.
  - rewrite lookup_delete_ne, !lookup_delete_eq by done.
    split; [done|]. split; [done|]. intros name Hfill Hstroke.
    by rewrite !lookup_delete_ne.
Qed.

(** C7.  With a selection set that is not empty, after
    [syncSelectionState] every bar whose selection token is contained in
    the set (some identity of the set [includes] it) has fill-opacity and
    stroke-opacity 1, and every other bar has both at 0.4; the bars, their
    data and their other styles are as before. *)
Theorem selection_sets_opacity (selection : list Bar.t)
    (selectionIds : list ISelectionId) :
  selectionIds ≠ [] →
  ∃ synced,
    syncSelectionState (Some selection) (Some selectionIds) = Some synced
    ∧ length synced = length selection
    ∧ ∀ i node,
        selection !! i = Some node →
        ∃ node',
          synced !! i = Some node'
          ∧ Bar.datum node' = Bar.datum node
          ∧ (containedIn selectionIds
               (BarChartDataPoint.selectionId (Bar.datum node)) →
             Bar.style node' !! "fill-opacity" = Some (StyleNumber 1)
             ∧ Bar.style node' !! "stroke-opacity" = Some (StyleNumber 1))
          ∧ (¬ containedIn selectionIds
                 (BarChartDataPoint.selectionId (Bar.datum node)) →
             Bar.style node' !! "fill-opacity" = Some (StyleNumber 0.4)
             ∧ Bar.style node' !! "stroke-opacity" = Some (StyleNumber 0.4))
          ∧ ∀ name, name ≠ "fill-opacity" → name ≠ "stroke-opacity" →
              Bar.style node' !! name = Bar.style node !! name.
Proof.
  intros Hnonempty. unfold syncSelectionState.
  destruct selectionIds as [|first others]; [done|]. simpl length.
  change (Nat.eqb (S (length others)) 0) with false. cbv iota.
  eexists. split; [done|]. unfold selection_each.
  split; [by rewrite length_fmap|].
  intros i node Hnode. eexists.
  split; [by rewrite list_lookup_fmap, Hnode|].
  set (ids := first :: others).
  set (token := BarChartDataPoint.selectionId (Bar.datum node)).
  pose proof (isSelectionIdInArray_containedIn ids token) as Hcontained.
  destruct (isSelectionIdInArray (Some ids) (Some token)).
  - destruct (setStyles_opacity (Some (StyleNumber Config.solidOpacity)) node)
      as (Hdatum & Hfill & Hstroke & Hframe).
    split; [done|]. split; [done|].
    split; [|done]. intros Hnot. destruct Hnot. by apply Hcontained.
  - destruct (setStyles_opacity
                (Some (StyleNumber Config.transparentOpacity)) node)
      as (Hdatum & Hfill & Hstroke & Hframe).
    split; [done|].
    split; [intros Hin; by apply Hcontained in Hin|]. done.
Qed.

(** C8.  With an empty selection set, after [syncSelectionState] no bar
    has an inline fill-opacity or stroke-opacity left; the bars, their
    data and their other styles are as before. *)
Theorem empty_selection_clears_opacity (selection : list Bar.t) :
  ∃ synced,
    syncSelectionState (Some selection) (Some []) = Some synced
    ∧ length synced = length selection
    ∧ Forall (fun node' =>
                Bar.style node' !! "fill-opacity" = None
                ∧ Bar.style node' !! "stroke-opacity" = None)
        synced
    ∧ Forall2 (fun node node' =>
                 Bar.datum node' = Bar.datum node
                 ∧ ∀ name, name ≠ "fill-opacity" → name ≠ "stroke-opacity" →
                     Bar.style node' !! name = Bar.style node !! name)
        selection synced.
Proof.
  eexists. split; [reflexivity|]. unfold selection_style.
  split; [by rewrite length_fmap|]. split.
  - apply Forall_fmap, Forall_true. intros node.
    by destruct (setStyles_opacity None node) as (_ & Hfill & Hstroke & _).
  - apply Forall2_fmap_r, Forall_Forall2_diag, Forall_true. intros node.
    by destruct (setStyles_opacity None node) as (Hdatum & _ & _ & Hframe).
Qed.

(** C10.  Called without a bar selection, or without an array of
    selection identities, [syncSelectionState] returns at once: the
    selection it was given, with every style of every bar, is what it
    leaves. *)
Theorem absent_arguments_change_nothing :
  (∀ selectionIds, syncSelectionState None selectionIds = None)
  ∧ (∀ selection, syncSelectionState selection None = selection).
Proof.
  split.
  - done.
  - by intros [selection|].
Qed.

End SelectionClaims.

(** * The properties on concrete inputs *)

Section Instances.
#[local] Existing Instance rowRuntime.

Import BarChartViewModel.

(** C1 on three categories and two values: three points, the third one
    with category ["C"] and an [undefined] value. *)
Lemma dataPoints_follow_columns_witness :
  passesGuard Sample.options
    (Sample.dataView (Some Sample.objects)
       (Some [Sample.category; Sample.otherCategory])
       (Some [Sample.dataValue; Sample.otherValue]))
    Sample.category [Sample.dataValue; Sample.otherValue]
  ∧ ∃ viewModel,
      visualTransform Sample.options (Sample.host false) = Normal viewModel
      ∧ length (dataPoints viewModel) = 3
      ∧ BarChartDataPoint.category <$> dataPoints viewModel !! 2 = Some "C"
      ∧ BarChartDataPoint.value <$> dataPoints viewModel !! 2
        = Some PUndefined.
Proof.
  assert (passesGuard Sample.options
            (Sample.dataView (Some Sample.objects)
               (Some [Sample.category; Sample.otherCategory])
               (Some [Sample.dataValue; Sample.otherValue]))
            Sample.category [Sample.dataValue; Sample.otherValue])
    as Hguard by guard_by_evaluation.
  split; [exact Hguard|].
  destruct (dataPoints_follow_columns Sample.options (Sample.host false)
              _ _ _ Sample.dataValue Hguard eq_refl)
    as (viewModel & Hreturn & Hlength & Hrows & _ & Hundefined).
  exists viewModel. split; [exact Hreturn|]. split; [exact Hlength|].
  destruct (Hrows 2 ltac:(simpl; lia))
    as (dataPoint & Hpoint & Hcategory & _).
  rewrite Hpoint. simpl. split; [by rewrite Hcategory|].
  by rewrite (Hundefined 2 dataPoint ltac:(simpl; lia) Hpoint).
Defined.

(** C2 on an input whose objects map and [colorSelector] hold colour
    overrides. *)
Lemma high_contrast_overrides_witness :
  isHighContrast (Sample.palette true) = true
  ∧ ∃ viewModel barChartSettings,
      visualTransform Sample.options (Sample.host true) = Normal viewModel
      ∧ settings viewModel = Some barChartSettings
      ∧ length (dataPoints viewModel) = 3
      ∧ Forall (fun dataPoint =>
                  BarChartDataPoint.strokeWidth dataPoint = 2%float
                  ∧ BarChartDataPoint.color dataPoint = "#000000"
                  ∧ BarChartDataPoint.strokeColor dataPoint = Some "#FFFFFF")
          (dataPoints viewModel)
      ∧ EnableAxis.fill (enableAxis barChartSettings) = "#FFFFFF"
      ∧ GeneralView.helpLinkColor (generalView barChartSettings)
        = Some "#FFFFFF".
Proof.
  split; [reflexivity|].
  destruct (high_contrast_overrides Sample.options (Sample.host true) eq_refl)
    as [Hforced Hreturns].
  destruct (Hreturns _ Sample.category _ Sample.dataValue
              ltac:(guard_by_evaluation) eq_refl)
    as (viewModel & barChartSettings & Hreturn & Hsettings & Hlength).
  destruct (Hforced viewModel Hreturn) as [Hpoints Hcolors].
  destruct (Hcolors barChartSettings Hsettings) as (Hfill & Hlink & _).
  exists viewModel, barChartSettings.
  repeat split; assumption.
Defined.

(** C3 fails at [generalView.helpLinkColor]: with high-contrast mode off
    and no objects map at all, the member resolves to [null], not to its
    compiled-in default ["#80B0E0"]. *)
Lemma helpLinkColor_not_default :
  ∃ viewModel barChartSettings,
    visualTransform Sample.plainOptions (Sample.host false) = Normal viewModel
    ∧ settings viewModel = Some barChartSettings
    ∧ isHighContrast (IVisualHost.colorPalette (Sample.host false)) = false
    ∧ hostOverride None (objectName generalView_helpLinkColor)
        (propertyName generalView_helpLinkColor) = None
    ∧ member barChartSettings generalView_helpLinkColor
      = NullableTextSetting None
    ∧ member defaultSettings generalView_helpLinkColor
      = NullableTextSetting (Some "#80B0E0")
    ∧ member barChartSettings generalView_helpLinkColor
      ≠ member defaultSettings generalView_helpLinkColor.
Proof.
  do 2 eexists. split; [reflexivity|]. split; [reflexivity|].
  repeat split. discriminate.
Qed.

(** C3 as the code has it, on an objects map that overrides other members
    than [enableAxis.show]. *)
Lemma settings_default_without_override_witness :
  isHighContrast (IVisualHost.colorPalette (Sample.host false)) = false
  ∧ hostOverride (Some Sample.objects) "enableAxis" "show" = None
  ∧ ∃ viewModel barChartSettings,
      visualTransform Sample.options (Sample.host false) = Normal viewModel
      ∧ settings viewModel = Some barChartSettings
      ∧ member barChartSettings enableAxis_show = BooleanSetting false
      ∧ member barChartSettings testAnalyticsProperty_helpLinkColor
        = NullableTextSetting None.
Proof.
  split; [reflexivity|].
  assert (hostOverride (Some Sample.objects) "enableAxis" "show" = None)
    as Habsent by (vm_compute; reflexivity).
  split; [exact Habsent|].
  destruct (settings_default_without_override Sample.options
              (Sample.host false) _ Sample.category _ Sample.dataValue
              ltac:(guard_by_evaluation) eq_refl eq_refl)
    as (viewModel & barChartSettings & Hreturn & Hsettings
        & Hdefault & Hlink).
  exists viewModel, barChartSettings.
  split; [exact Hreturn|]. split; [exact Hsettings|]. split.
  - exact (Hdefault enableAxis_show eq_refl Habsent).
  - exact (Hlink testAnalyticsProperty_helpLinkColor eq_refl).
Defined.

(** C4 fails where the host aggregate is not the maximum of the values:
    the data points carry 5, 7 and [undefined], the largest value is 7,
    and [dataMax] is the [maxLocal] 100 of the column. *)
Lemma dataMax_not_largest :
  ∃ viewModel,
    visualTransform Sample.plainOptions (Sample.host false) = Normal viewModel
    ∧ BarChartDataPoint.value <$> dataPoints viewModel
      = [PNumber 5; PNumber 7; PUndefined]
    ∧ largestValue (dataPoints viewModel) (PNumber 7)
    ∧ dataMax viewModel = PNumber 100
    ∧ ¬ largestValue (dataPoints viewModel) (dataMax viewModel).
Proof.
  eexists. split; [reflexivity|]. split; [reflexivity|].
  cbn [dataPoints dataMax]. rewrite forPush_seq. simpl.
  split; [|split; [done|]].
  - split.
    + eexists. split; [apply list_elem_of_further, list_elem_of_here|done].
    + exists 7%float. split; [done|]. intros dataPoint n Hin Hvalue.
      rewrite !elem_of_cons, elem_of_nil in Hin.
      destruct Hin as [->|[->|[->|[]]]];
        [injection Hvalue as <-; reflexivity..|discriminate Hvalue].
  - intros [(dataPoint & Hin & Hvalue) _].
    rewrite !elem_of_cons, elem_of_nil in Hin.
    destruct Hin as [->|[->|[->|[]]]];
      vm_compute in Hvalue;
      [distinct_numbers Hvalue..|discriminate Hvalue].
Qed.

(** C4 as the code has it, on a column whose [maxLocal] is 100. *)
Lemma dataMax_is_maxLocal_witness :
  [Sample.dataValue; Sample.otherValue] !! 0 = Some Sample.dataValue
  ∧ ∃ viewModel,
      visualTransform Sample.options (Sample.host false) = Normal viewModel
      ∧ dataMax viewModel = PNumber 100.
Proof.
  split; [reflexivity|].
  exact (dataMax_is_maxLocal Sample.options (Sample.host false)
           _ Sample.category _ Sample.dataValue
           ltac:(guard_by_evaluation) eq_refl).
Defined.

(** C6 outside high-contrast mode: the first row takes the palette colour
    of ["A"], the second its [colorSelector] fill. *)
Lemma bar_color_resolution_witness :
  [Sample.dataValue; Sample.otherValue] !! 0 = Some Sample.dataValue
  ∧ ∃ viewModel,
      visualTransform Sample.options (Sample.host false) = Normal viewModel
      ∧ BarChartDataPoint.color <$> dataPoints viewModel !! 0
        = Some "#01B8AA"
      ∧ BarChartDataPoint.color <$> dataPoints viewModel !! 1
        = Some "#123456".
Proof.
  split; [reflexivity|].
  destruct (bar_color_resolution Sample.options (Sample.host false)
              _ Sample.category _ Sample.dataValue
              ltac:(guard_by_evaluation) eq_refl)
    as (viewModel & Hreturn & Hcolor).
  exists viewModel. split; [exact Hreturn|].
  destruct (Hcolor 0 ltac:(simpl; lia)) as (first & Hfirst & Hpalette).
  destruct (Hcolor 1 ltac:(simpl; lia)) as (second & Hsecond & Hoverride).
  rewrite Hfirst, Hsecond. simpl. rewrite Hpalette, Hoverride.
  split; vm_compute; reflexivity.
Defined.

(** C7 on two bars with the second one selected; the [fill] of the bars
    stays. *)
Lemma selection_sets_opacity_witness :
  [1] ≠ []
  ∧ ∃ synced,
      syncSelectionState (Some Sample.bars) (Some [1]) = Some synced
      ∧ (synced !! 0 ≫= fun node' => Bar.style node' !! "fill-opacity")
        = Some (StyleNumber 0.4)
      ∧ (synced !! 1 ≫= fun node' => Bar.style node' !! "stroke-opacity")
        = Some (StyleNumber 1)
      ∧ (synced !! 1 ≫= fun node' => Bar.style node' !! "fill")
        = Some (StyleString "#01B8AA").
Proof.
  assert ([1] ≠ []) as Hnonempty by discriminate.
  split; [exact Hnonempty|].
  destruct (selection_sets_opacity Sample.bars [1] Hnonempty)
    as (synced & Hsync & _ & Hbars).
  exists synced. split; [exact Hsync|].
  destruct (Hbars 0 _ eq_refl) as (unselected & -> & _ & _ & Hdimmed & _).
  destruct (Hbars 1 _ eq_refl) as (selected & -> & _ & Hsolid & _ & Hother).
  simpl. split; [|split].
  - apply Hdimmed. intros (current & Hin & Hincludes).
    apply list_elem_of_singleton in Hin. subst current. discriminate Hincludes.
  - apply Hsolid. exists 1. split; [apply list_elem_of_here|reflexivity].
  - rewrite Hother by discriminate. vm_compute. reflexivity.
Defined.

End Instances.

(** * Further properties of [visualTransform] *)

Section TransformEdges.
Context `{HostRuntime}.

Import BarChartViewModel.

(** X1.  [visualTransform] throws in two cases and no other: the first data
    view has a [categorical] whose categories array is present and empty;
    or the guard is passed (a first category column with a [source], and a
    values array) and the values array is empty. *)
Theorem visualTransform_throws options host :
  (∃ e, visualTransform options host = Throw e)
  ↔ ∃ dataView rest categorical,
      VisualUpdateOptions.dataViews options = Some (dataView :: rest)
      ∧ DataView.categorical dataView = Some categorical
      ∧ (DataViewCategorical.categories categorical = Some []
         ∨ ∃ category others,
             DataViewCategorical.categories categorical
               = Some (category :: others)
             ∧ is_Some (DataViewCategoryColumn.source category)
             ∧ DataViewCategorical.values categorical = Some []).
Proof.
  unfold visualTransform.
  destruct options as [[[|dataView rest]|]]; simpl.
  1, 3: split; [by intros [e [=]]|by intros (? & ? & ? & [=] & _)].
  assert (∀ P : Prop, ¬ P → ((∃ e, Normal emptyViewModel = Throw e) ↔ P))
    as Hreturned by (intros P HP; split; [by intros [e [=]]|done]).
  destruct (DataView.categorical dataView) as [categorical|] eqn:Hcategorical.
  2: { apply Hreturned. intros (? & ? & ? & [= <- <-] & ? & _). congruence. }
  destruct (DataViewCategorical.categories categorical)
    as [[|category others]|] eqn:Hcategories; simpl.
  - split; [|by eauto]. intros _.
    exists dataView, rest, categorical. by eauto.
  - destruct (DataViewCategoryColumn.source category) as [source|] eqn:Hsource.
    + destruct (DataViewCategorical.values categorical)
        as [[|dataValue more]|] eqn:Hvalues; simpl.
      * split; [|by eauto]. intros _.
        exists dataView, rest, categorical. split; [done|]. split; [done|].
        right. exists category, others. by rewrite Hsource.
      * split; [by intros [e [=]]|].
        intros (? & ? & ? & [= <- <-] & ? & [?|(? & ? & ? & _ & ?)]);
          congruence.
      * apply Hreturned.
        intros (? & ? & ? & [= <- <-] & ? & [?|(? & ? & ? & _ & ?)]);
          congruence.
    + apply Hreturned.
      intros (? & ? & ? & [= <- <-] & ? & [?|(? & ? & ? & [? ?] & _)]);
        congruence.
  - apply Hreturned.
    intros (? & ? & ? & [= <- <-] & ? & [?|(? & ? & ? & _)]); congruence.
Qed.

(** X2.  Outside high-contrast mode no data point of a returned view model
    has a stroke: the stroke width is 0 and the stroke colour is [null]. *)
Theorem no_stroke_outside_high_contrast options host viewModel :
  isHighContrast (IVisualHost.colorPalette host) = false →
  visualTransform options host = Normal viewModel →
  Forall (fun dataPoint =>
            BarChartDataPoint.strokeWidth dataPoint = 0%float
            ∧ BarChartDataPoint.strokeColor dataPoint = None)
    (dataPoints viewModel).
Proof.
  intros Hcontrast Hreturn.
  destruct (visualTransform_Normal _ _ _ Hreturn)
    as [->|(dataView & category & values & dataValue & Hguard & Hvalue)];
    [constructor|].
  rewrite (visualTransform_rows _ _ _ _ _ _ Hguard Hvalue) in Hreturn.
  injection Hreturn as <-. simpl.
  apply Forall_forall. intros dataPoint [i ->]%rows_elem_of. simpl.
  unfold getColumnStrokeColor. by rewrite Hcontrast.
Qed.

(** X3.  With a value column longer than the category column, every data
    point past the end of the category column is labelled ["undefined"],
    carries the value of its row, and (outside high-contrast mode, without
    a per-row colour for it) takes the one palette colour of the key
    ["undefined"]. *)
Theorem rows_past_the_categories options host dataView category values
    dataValue :
  passesGuard options dataView category values →
  values !! 0 = Some dataValue →
  ∃ viewModel,
    visualTransform options host = Normal viewModel
    ∧ ∀ (i : nat) dataPoint,
        length (DataViewCategoryColumn.values category) ≤ i →
        dataPoints viewModel !! i = Some dataPoint →
        BarChartDataPoint.category dataPoint = "undefined"
        ∧ BarChartDataPoint.value dataPoint
          = at_index (DataViewValueColumn.values dataValue) i
        ∧ (isHighContrast (IVisualHost.colorPalette host) = false →
           colorSelectorFill category i = None →
           BarChartDataPoint.color dataPoint
           = IColorInfo.value
               (getColor (IVisualHost.colorPalette host) "undefined")).
Proof.
  intros Hguard Hvalue. eexists.
  split; [by eapply visualTransform_rows|]. simpl.
  intros i dataPoint Hpast Hlookup.
  assert (i < Nat.max (length (DataViewCategoryColumn.values category))
                (length (DataViewValueColumn.values dataValue))) as Hi.
  { apply lookup_lt_Some in Hlookup. by rewrite rows_length in Hlookup. }
  rewrite rows_lookup in Hlookup by done. injection Hlookup as <-. simpl.
  unfold at_index at 1. rewrite lookup_ge_None_2 by done. simpl.
  split; [done|]. split; [done|]. intros Hcontrast Hnone.
  unfold getColumnColorByIndex, getCategoricalObjectValue.
  rewrite Hcontrast. unfold colorSelectorFill in Hnone.
  unfold at_index. rewrite lookup_ge_None_2 by done. simpl.
  destruct (rowOverride category i "colorSelector" "fill") as [property|];
    [|done].
  simpl in Hnone. by rewrite Hnone.
Qed.

(** X4.  The bars do not depend on the objects map: two inputs that pass
    the guard with the same first category column and the same first value
    column give the same data points and the same [dataMax], whatever
    their metadata and their other columns. *)
Theorem dataPoints_ignore_objects options options' host dataView dataView'
    category values values' dataValue :
  passesGuard options dataView category values →
  passesGuard options' dataView' category values' →
  values !! 0 = Some dataValue →
  values' !! 0 = Some dataValue →
  ∃ viewModel viewModel',
    visualTransform options host = Normal viewModel
    ∧ visualTransform options' host = Normal viewModel'
    ∧ dataPoints viewModel = dataPoints viewModel'
    ∧ dataMax viewModel = dataMax viewModel'.
Proof.
  intros Hguard Hguard' Hvalue Hvalue'. do 2 eexists.
  split; [by eapply visualTransform_rows|].
  split; [by eapply visualTransform_rows|]. done.
Qed.

(** X5.  The settings do not depend on the data: two inputs that pass the
    guard and have a value column resolve to the same settings when their
    first data views carry the same objects map, whatever their columns. *)
Theorem settings_ignore_columns options options' host dataView dataView'
    category category' values values' dataValue dataValue' :
  passesGuard options dataView category values →
  passesGuard options' dataView' category' values' →
  values !! 0 = Some dataValue →
  values' !! 0 = Some dataValue' →
  DataViewMetadata.objects (DataView.metadata dataView)
  = DataViewMetadata.objects (DataView.metadata dataView') →
  ∃ viewModel viewModel' barChartSettings,
    visualTransform options host = Normal viewModel
    ∧ visualTransform options' host = Normal viewModel'
    ∧ settings viewModel = Some barChartSettings
    ∧ settings viewModel' = Some barChartSettings.
Proof.
  intros Hguard Hguard' Hvalue Hvalue' Hobjects. do 3 eexists.
  split; [by eapply visualTransform_rows|].
  split; [by eapply visualTransform_rows|]. simpl.
  split; [done|]. by rewrite Hobjects.
Qed.

End TransformEdges.

(** * Further properties of the selection state *)

Section SelectionEdges.
Context `{HostRuntime}.

Lemma syncSelectionState_syncedOpacity (selection : list Bar.t)
    (selectionIds : list ISelectionId) :
  syncSelectionState (Some selection) (Some selectionIds)
  = Some ((fun node =>
             setStyles [("fill-opacity", syncedOpacity selectionIds node);
                        ("stroke-opacity", syncedOpacity selectionIds node)]
               node) <$> selection).
Proof.
  unfold syncSelectionState, syncedOpacity, selection_style, selection_each.
  by destruct (Nat.eqb (length selectionIds) 0).
Qed.

Lemma Bar_eq (node node' : Bar.t) :
  Bar.datum node = Bar.datum node' →
  (∀ name, Bar.style node !! name = Bar.style node' !! name) →
  node = node'.
Proof.
  destruct node as [datum style], node' as [datum' style']; simpl.
  intros -> Hstyle. f_equal. by apply map_eq.
Qed.

(** Setting the two opacities makes what they were before irrelevant. *)
Lemma setStyles_opacity_overwrites value node node' :
  Bar.datum node = Bar.datum node' →
  (∀ name, name ≠ "fill-opacity" → name ≠ "stroke-opacity" →
           Bar.style node !! name = Bar.style node' !! name) →
  setStyles [("fill-opacity", value); ("stroke-opacity", value)] node
  = setStyles [("fill-opacity", value); ("stroke-opacity", value)] node'.
Proof.
  intros Hdatum Hstyle. apply Bar_eq; [done|]. intros name.
  destruct (setStyles_opacity value node) as (_ & Hfill & Hstroke & Hother).
  destruct (setStyles_opacity value node') as (_ & Hfill' & Hstroke' & Hother').
  destruct (decide (name = "fill-opacity")) as [->|Hnotfill]; [congruence|].
  destruct (decide (name = "stroke-opacity")) as [->|Hnotstroke];
    [congruence|].
  rewrite Hother, Hother' by done. by apply Hstyle.
Qed.

Lemma syncedOpacity_datum selectionIds (node node' : Bar.t) :
  Bar.datum node = Bar.datum node' →
  syncedOpacity selectionIds node = syncedOpacity selectionIds node'.
Proof. unfold syncedOpacity. by intros ->. Qed.

Lemma syncedOpacity_overwrites selectionIds (node node' : Bar.t) :
  Bar.datum node = Bar.datum node' →
  (∀ name, name ≠ "fill-opacity" → name ≠ "stroke-opacity" →
           Bar.style node !! name = Bar.style node' !! name) →
  setStyles [("fill-opacity", syncedOpacity selectionIds node);
             ("stroke-opacity", syncedOpacity selectionIds node)] node
  = setStyles [("fill-opacity", syncedOpacity selectionIds node');
               ("stroke-opacity", syncedOpacity selectionIds node')] node'.
Proof.
  intros Hdatum Hstyle. rewrite (syncedOpacity_datum _ _ _ Hdatum).
  by apply setStyles_opacity_overwrites.
Qed.

Lemma existsb_same_elements {A : Type} (f : A -> bool) (l l' : list A) :
  (∀ x, x ∈ l ↔ x ∈ l') → existsb f l = existsb f l'.
Proof.
  intros Hsame. apply eq_true_iff_eq. rewrite !existsb_exists.
  split; intros (x & Hin & Hf); exists x;
    (split; [apply list_elem_of_In, Hsame, list_elem_of_In, Hin|done]).
Qed.

(** X6.  The last synchronization wins: synchronizing with a selection
    array after any earlier synchronization leaves the bars exactly as
    synchronizing with that array alone; in particular synchronizing twice
    with one array is synchronizing once. *)
Theorem later_synchronization_wins (selection : list Bar.t)
    (earlier : option (list ISelectionId)) (selectionIds : list ISelectionId) :
  syncSelectionState (syncSelectionState (Some selection) earlier)
    (Some selectionIds)
  = syncSelectionState (Some selection) (Some selectionIds).
Proof.
  destruct earlier as [earlier|]; [|done].
  rewrite (syncSelectionState_syncedOpacity selection earlier).
  rewrite !syncSelectionState_syncedOpacity. f_equal.
  rewrite <- list_fmap_compose. apply list_fmap_ext. intros i node _.
  cbn [compose].
  destruct (setStyles_opacity (syncedOpacity earlier node) node)
    as (Hdatum & _ & _ & Hother).
  by apply syncedOpacity_overwrites.
Qed.

(** X7.  Only the identities in the selection array matter, not their
    order nor their repetition: two arrays with the same elements leave
    the bars in the same state. *)
Theorem selection_order_is_irrelevant (selection : list Bar.t)
    (selectionIds selectionIds' : list ISelectionId) :
  (∀ selectionId, selectionId ∈ selectionIds ↔ selectionId ∈ selectionIds') →
  syncSelectionState (Some selection) (Some selectionIds)
  = syncSelectionState (Some selection) (Some selectionIds').
Proof.
  intros Hsame. rewrite !syncSelectionState_syncedOpacity. f_equal.
  apply list_fmap_ext. intros i node _.
  assert (syncedOpacity selectionIds node = syncedOpacity selectionIds' node)
    as ->; [|done].
  unfold syncedOpacity, isSelectionIdInArray.
  rewrite (existsb_same_elements _ _ _ Hsame).
  destruct selectionIds as [|first others], selectionIds' as [|first' others'];
    try done.
  - by destruct (not_elem_of_nil first'); apply Hsame; left.
  - by destruct (not_elem_of_nil first); apply Hsame; left.
Qed.

(** X8.  After a synchronization with both arguments present, the fill
    opacity and the stroke opacity of every bar agree, and are in one of
    three states: absent, 1 or 0.4. *)
Theorem opacities_agree_after_synchronization (selection : list Bar.t)
    (selectionIds : list ISelectionId) :
  ∃ synced,
    syncSelectionState (Some selection) (Some selectionIds) = Some synced
    ∧ Forall (fun node' =>
                Bar.style node' !! "fill-opacity"
                = Bar.style node' !! "stroke-opacity"
                ∧ (Bar.style node' !! "fill-opacity" = None
                   ∨ Bar.style node' !! "fill-opacity" = Some (StyleNumber 1)
                   ∨ Bar.style node' !! "fill-opacity"
                     = Some (StyleNumber 0.4)))
        synced.
Proof.
  eexists. split; [apply syncSelectionState_syncedOpacity|].
  apply Forall_fmap, Forall_true. intros node. cbn [compose].
  destruct (setStyles_opacity (syncedOpacity selectionIds node) node)
    as (_ & -> & -> & _).
  split; [done|]. unfold syncedOpacity.
  destruct (Nat.eqb (length selectionIds) 0); [by left|].
  destruct (isSelectionIdInArray _ _); [right; by left|right; by right].
Qed.

(** X9.  Growing the selection never dims a bar: a bar that is solid under
    one selection array is solid under every array that holds at least the
    same identities. *)
Theorem growing_selection_keeps_bars_solid (selection : list Bar.t)
    (selectionIds selectionIds' : list ISelectionId) (i : nat) (node : Bar.t) :
  (∀ selectionId, selectionId ∈ selectionIds → selectionId ∈ selectionIds') →
  syncSelectionState (Some selection) (Some selectionIds) ≫= (.!! i)
  = Some node →
  Bar.style node !! "fill-opacity" = Some (StyleNumber 1) →
  ∃ node',
    syncSelectionState (Some selection) (Some selectionIds') ≫= (.!! i)
    = Some node'
    ∧ Bar.style node' !! "fill-opacity" = Some (StyleNumber 1)
    ∧ Bar.style node' !! "stroke-opacity" = Some (StyleNumber 1).
Proof.
  intros Hgrows. rewrite !syncSelectionState_syncedOpacity.
  cbn [mbind option_bind]. rewrite !list_lookup_fmap.
  destruct (selection !! i) as [bar|]; [|done].
  cbn [fmap option_fmap option_map].
  intros Hnode%(inj Some) Hsolid. subst node. eexists. split; [done|].
  destruct (setStyles_opacity (syncedOpacity selectionIds bar) bar)
    as (_ & Hfill & _).
  destruct (setStyles_opacity (syncedOpacity selectionIds' bar) bar)
    as (_ & -> & -> & _).
  rewrite Hfill in Hsolid. clear Hfill.
  assert (syncedOpacity selectionIds' bar = Some (StyleNumber 1)) as ->;
    [|done].
  unfold syncedOpacity in *.
  destruct selectionIds as [|first others]; [done|].
  destruct selectionIds' as [|first' others'].
  { by destruct (not_elem_of_nil first); apply Hgrows; left. }
  simpl Nat.eqb in *. cbv iota in *. unfold isSelectionIdInArray in *.
  destruct (existsb _ (first :: others)) eqn:Hselected.
  - apply existsb_exists in Hselected as (current & Hin & Hincludes).
    assert (existsb
              (fun currentSelectionId =>
                 includes currentSelectionId
                   (BarChartDataPoint.selectionId (Bar.datum bar)))
              (first' :: others') = true) as ->; [|done].
    apply existsb_exists. exists current. split; [|done].
    by apply list_elem_of_In, Hgrows, list_elem_of_In.
  - exfalso.
    pose proof
      (f_equal (fun opacity => match opacity with
                               | Some (StyleNumber x) => PrimFloat.eqb x 1
                               | _ => false
                               end) Hsolid) as Heqb.
    vm_compute in Heqb. discriminate Heqb.
Qed.

(** X10.  The opacity that [update] gives the bars from
    [generalView.opacity] does not survive the synchronization that
    follows it: with a selection array present, the bars end in the same
    state whatever the opacity setting is. *)
Theorem opacity_setting_does_not_survive (selection : list Bar.t)
    (selectionIds : list ISelectionId) (settings settings' : BarChartSettings) :
  syncSelectionState
    (Some (update_style (update_opacity settings) selection))
    (Some selectionIds)
  = syncSelectionState
      (Some (update_style (update_opacity settings') selection))
      (Some selectionIds).
Proof.
  rewrite !syncSelectionState_syncedOpacity. f_equal.
  unfold update_style, selection_each.
  rewrite <- !list_fmap_compose. apply list_fmap_ext. intros i node _.
  cbn [compose]. apply syncedOpacity_overwrites; [done|].
  intros name Hfill Hstroke. simpl.
  destruct (decide (name = "stroke-width")) as [->|Hwidth];
    [by destruct (BarChartDataPoint.strokeColor _); simplify_map_eq|].
  destruct (decide (name = "stroke")) as [->|Hcolor];
    [by destruct (BarChartDataPoint.strokeColor _); simplify_map_eq|].
  destruct (decide (name = "fill")) as [->|Hpaint];
    by destruct (BarChartDataPoint.strokeColor _); simplify_map_eq.
Qed.

End SelectionEdges.

(** * Properties of [enumerateObjectInstances] *)

Section EnumerateFacts.
Context `{HostRuntime} {Selector : Type} (getSelector : ISelectionId -> Selector).

Lemma forOfPush_fmap {A B : Type} (body : A -> B) (array : list A) :
  forOfPush body array = body <$> array.
Proof.
  unfold forOfPush.
  enough (∀ pushed,
            foldl (fun pushed item => pushed ++ [body item]) pushed array
            = pushed ++ (body <$> array)) as Hpushed by apply (Hpushed []).
  induction array as [|item array IH]; intros pushed; simpl.
  - by rewrite app_nil_r.
  - by rewrite IH, <- app_assoc.
Qed.

(** X11.  An object name that [enumerateObjectInstances] has no case for
    gives the empty enumeration and no error, also before the first
    [update] and after an [update] on degenerate input. *)
Theorem unknown_object_enumerates_nothing barChartSettings barDataPoints
    options :
  EnumerateVisualObjectInstancesOptions.objectName options
    ∉ "colorSelector" :: settingsSections →
  enumerateObjectInstances getSelector barChartSettings barDataPoints options
  = Normal [].
Proof.
  unfold enumerateObjectInstances, settingsSections.
  rewrite !not_elem_of_cons. intros (? & ? & ? & ? & ? & ? & _).
  by repeat case_decide.
Qed.

(** X12.  [enumerateObjectInstances] throws in two cases and no other: a
    settings section is asked for while the settings are unresolved
    ([undefined] before the first [update], or the empty object left by an
    [update] on degenerate input); or ["colorSelector"] is asked for
    before any [update] has stored data points. *)
Theorem enumeration_throws barChartSettings barDataPoints options :
  (∃ e, enumerateObjectInstances getSelector barChartSettings barDataPoints
          options = Throw e)
  ↔ (EnumerateVisualObjectInstancesOptions.objectName options
       ∈ settingsSections
     ∧ (barChartSettings = None ∨ barChartSettings = Some None))
    ∨ (EnumerateVisualObjectInstancesOptions.objectName options
         = "colorSelector"
       ∧ barDataPoints = None).
Proof.
  unfold enumerateObjectInstances, settingsSections.
  destruct options as [objectName]; simpl.
  rewrite !elem_of_cons, elem_of_nil.
  repeat case_decide; subst;
    destruct barChartSettings as [[settings|]|];
    destruct barDataPoints as [barDataPoints|]; simpl;
    (split; [intros [e He]; try discriminate He|intros Hcase]);
    intuition (eauto; congruence).
Qed.

(** X13.  For ["colorSelector"] the enumeration holds one instance per
    stored data point, in the order of the bars: each is named after the
    bar's category, offers the bar's current colour as its [fill], and is
    bound to the selector of the bar's selection identity. *)
Theorem color_pickers_follow_bars barChartSettings
    (barDataPoints : list BarChartDataPoint.t) :
  ∃ instances,
    enumerateObjectInstances getSelector barChartSettings (Some barDataPoints)
      {| EnumerateVisualObjectInstancesOptions.objectName := "colorSelector" |}
    = Normal instances
    ∧ length instances = length barDataPoints
    ∧ ∀ i barDataPoint,
        barDataPoints !! i = Some barDataPoint →
        ∃ instance,
          instances !! i = Some instance
          ∧ VisualObjectInstance.objectName instance = "colorSelector"
          ∧ VisualObjectInstance.displayName instance
            = Some (BarChartDataPoint.category barDataPoint)
          ∧ VisualObjectInstance.properties instance
            = {[ "fill" :=
                   FillValue
                     {| Fill.solid :=
                          {| Fill.color :=
                               BarChartDataPoint.color barDataPoint |} |} ]}
          ∧ VisualObjectInstance.selector instance
            = Some (getSelector (BarChartDataPoint.selectionId barDataPoint)).
Proof.
  eexists. split; [reflexivity|]. rewrite forOfPush_fmap.
  split; [by rewrite length_fmap|].
  intros i barDataPoint Hpoint. eexists.
  split; [by rewrite list_lookup_fmap, Hpoint|]. done.
Qed.

(** X14.  Every settings member other than the two [helpLinkColor] members
    is offered to the formatting pane: asking for its section gives one
    instance, not bound to a selector, whose properties hold the member's
    current value under the member's name. *)
Theorem members_are_enumerated settings barDataPoints field :
  isHelpLinkColor field = false →
  ∃ instance,
    enumerateObjectInstances getSelector (Some (Some settings)) barDataPoints
      {| EnumerateVisualObjectInstancesOptions.objectName := objectName field |}
    = Normal [instance]
    ∧ VisualObjectInstance.objectName instance = objectName field
    ∧ VisualObjectInstance.properties instance !! propertyName field
      = Some (paneValue (member settings field))
    ∧ VisualObjectInstance.selector instance = None.
Proof.
  intros Hfield.
  destruct field as [| | | | | | | | | | | | | m | m];
    try discriminate Hfield; try destruct m;
    (eexists; split; [reflexivity|]; repeat split; vm_compute; reflexivity).
Qed.

(** X15.  No enumeration offers a [helpLinkColor]: whatever the object
    name and the state of the visual, no instance returned has a property
    of that name. *)
Theorem helpLinkColor_is_never_offered barChartSettings barDataPoints options
    instances :
  enumerateObjectInstances getSelector barChartSettings barDataPoints options
  = Normal instances →
  Forall (fun instance =>
            VisualObjectInstance.properties instance !! "helpLinkColor" = None)
    instances.
Proof.
  unfold enumerateObjectInstances.
  repeat case_decide;
    destruct barChartSettings as [[settings|]|];
    destruct barDataPoints as [barDataPoints|]; simpl;
    intros [= <-]; rewrite ?forOfPush_fmap;
    try (apply Forall_fmap, Forall_true; intros barDataPoint);
    repeat constructor; vm_compute; reflexivity.
Qed.

(** X16.  Every instance returned carries the object name that was asked
    for, and every valid range it reports is a range of numbers
    [min <= max] for a property it offers with a number as value. *)
Theorem instances_are_well_formed barChartSettings barDataPoints options
    instances :
  enumerateObjectInstances getSelector barChartSettings barDataPoints options
  = Normal instances →
  Forall (fun instance =>
            VisualObjectInstance.objectName instance
            = EnumerateVisualObjectInstancesOptions.objectName options
            ∧ ∀ ranges name range,
                VisualObjectInstance.validValues instance = Some ranges →
                ranges !! name = Some range →
                PrimFloat.leb (NumberRange.min range) (NumberRange.max range)
                = true
                ∧ ∃ n, VisualObjectInstance.properties instance !! name
                       = Some (numberValue n))
    instances.
Proof.
  assert (∀ (ranges : gmap string NumberRange.t) properties,
            map_Forall (fun name range =>
                          PrimFloat.leb (NumberRange.min range)
                            (NumberRange.max range) = true
                          ∧ ∃ n, properties !! name = Some (numberValue n))
              ranges →
            ∀ instance,
              VisualObjectInstance.validValues instance = Some ranges →
              VisualObjectInstance.properties instance = properties →
              ∀ ranges' name range,
                VisualObjectInstance.validValues instance = Some ranges' →
                ranges' !! name = Some range →
                PrimFloat.leb (NumberRange.min range) (NumberRange.max range)
                = true
                ∧ ∃ n, VisualObjectInstance.properties (Selector := Selector)
                         instance !! name = Some (numberValue n))
    as Hranged.
  { intros ranges properties Hall instance -> -> ranges' name range [= <-].
    apply Hall. }
  unfold enumerateObjectInstances.
  repeat case_decide;
    destruct barChartSettings as [[settings|]|];
    destruct barDataPoints as [barDataPoints|]; simpl;
    intros [= <-]; rewrite ?forOfPush_fmap;
    first
      [ apply Forall_nil_2
      | apply Forall_fmap, Forall_true; intros barDataPoint;
        split; [done|]; by intros ranges name range [=]
      | apply Forall_singleton; split; [done|];
        first
          [ by intros ranges name range [=]
          | eapply Hranged; [|reflexivity..];
            unfold cardValidValues; simpl;
            repeat (apply map_Forall_insert_2 || apply map_Forall_empty);
            (split; [reflexivity|eexists; vm_compute; reflexivity]) ] ].
Qed.

End EnumerateFacts.

(** * Properties of [getTooltipData] *)

Section TooltipFacts.
Context `{HostRuntime} (getLocalizedString : string -> string -> option string).

Import BarChartViewModel.

(** X17.  A tooltip needs a value: for a data point whose value is
    [undefined] or [null], [getTooltipData] throws; for every other data
    point it returns one item, named after the category, in the colour of
    the bar, whose text is the text of the value. *)
Theorem tooltip_needs_a_value locale (dataPoint : BarChartDataPoint.t) :
  (BarChartDataPoint.value dataPoint = PUndefined
   ∨ BarChartDataPoint.value dataPoint = PNull →
   ∃ e, getTooltipData getLocalizedString locale dataPoint = Throw e)
  ∧ (BarChartDataPoint.value dataPoint ≠ PUndefined →
     BarChartDataPoint.value dataPoint ≠ PNull →
     ∃ item,
       getTooltipData getLocalizedString locale dataPoint = Normal [item]
       ∧ VisualTooltipDataItem.displayName item
         = BarChartDataPoint.category dataPoint
       ∧ VisualTooltipDataItem.color item = BarChartDataPoint.color dataPoint
       ∧ VisualTooltipDataItem.value item
         = templateString (BarChartDataPoint.value dataPoint)).
Proof.
  unfold getTooltipData. split.
  - intros [-> | ->]; by eexists.
  - intros Hdefined Hnonnull.
    destruct (BarChartDataPoint.value dataPoint) as [| |[|]|n|s|time];
      try done; by eexists.
Qed.

(** X18.  With a value column shorter than the category column, the bars
    past the end of the value column have no tooltip: [getTooltipData]
    throws on each of their data points. *)
Theorem tooltips_past_the_values_throw options host dataView category values
    dataValue locale :
  passesGuard options dataView category values →
  values !! 0 = Some dataValue →
  ∃ viewModel,
    visualTransform options host = Normal viewModel
    ∧ ∀ (i : nat) dataPoint,
        length (DataViewValueColumn.values dataValue) ≤ i →
        dataPoints viewModel !! i = Some dataPoint →
        ∃ e, getTooltipData getLocalizedString locale dataPoint = Throw e.
Proof.
  intros Hguard Hvalue. eexists.
  split; [by eapply visualTransform_rows|]. simpl.
  intros i dataPoint Hpast Hlookup.
  assert (i < Nat.max (length (DataViewCategoryColumn.values category))
                (length (DataViewValueColumn.values dataValue))) as Hi.
  { apply lookup_lt_Some in Hlookup. by rewrite rows_length in Hlookup. }
  rewrite rows_lookup in Hlookup by done. injection Hlookup as <-.
  unfold getTooltipData. simpl. unfold at_index.
  rewrite lookup_ge_None_2 by done. by eexists.
Qed.

End TooltipFacts.

(** * Properties of [HandleLandingPage] *)

Section LandingPageFacts.

(** The children the constructor left were created before the page. *)
Variable children : list Element.
Variable created : nat.
Hypothesis children_created :
  Forall (fun child => nodeId child < created) children.

Lemma removeChild_last page (others : list Element) :
  Forall (fun child => nodeId child < nodeId page) others →
  removeChild page (others ++ [page]) = others.
Proof.
  unfold removeChild. intros Hothers. rewrite filter_app.
  rewrite (filter_cons_False _ _ []);
    [|intros Hother; apply Hother; reflexivity].
  rewrite filter_nil, app_nil_r.
  induction Hothers as [|child others Hchild _ IH]; [done|].
  rewrite filter_cons_True; [by rewrite IH|]. lia.
Qed.

Lemma page_not_among_children :
  (createSampleLandingPage created).1 ∉ children.
Proof.
  intros Hin.
  apply (proj1 (Forall_forall _ _) children_created) in Hin. simpl in Hin. lia.
Qed.

#[local] Arguments removeChild : simpl never.

Lemma HandleLandingPage_history options this :
  landingPageHistory children created this →
  ∃ this',
    HandleLandingPage options this = (this', Normal ())
    ∧ landingPageHistory children created this'
    ∧ (withoutData options = false →
       LandingPageFields.isLandingPageOn this' = true →
       LandingPageFields.LandingPageRemoved this' = true).
Proof.
  unfold landingPageHistory, HandleLandingPage.
  intros [(Hon & Hremoved & Hunset & Helement & Hcreated)
         |[(Hon & Hremoved & Hpage & Helement)
          |(Hon & Hremoved & Hpage & Helement)]];
    destruct (withoutData options); rewrite Hon, ?Hremoved, ?Hpage; simpl;
    eexists; (split; [reflexivity|]); simpl.
  - rewrite Hcreated, Helement. split; [right; left; by eauto|done].
  - split; [left; by eauto 6|]. by rewrite Hon.
  - split; [right; left; by eauto|done].
  - rewrite Helement. simpl.
    rewrite removeChild_last by exact children_created.
    split; [right; right; by eauto|done].
  - split; [right; right; by eauto|done].
  - split; [right; right; by eauto|done].
Qed.

(** X19.  From the fields as the constructor leaves them, no series of
    updates makes [HandleLandingPage] throw, and after each of them the
    host element holds the constructor's children alone or followed by the
    one landing page: the page is appended at most once, and no other child
    is ever added, removed or moved. *)
Theorem landing_page_history_is_kept updates this :
  landingPageHistory children created this →
  ∃ this',
    handleUpdates updates this = (this', Normal ())
    ∧ landingPageHistory children created this'.
Proof.
  revert this. induction updates as [|options later IH]; intros this Hhistory.
  - by exists this.
  - destruct (HandleLandingPage_history options this Hhistory)
      as (next & Hstep & Hnext & _).
    simpl. rewrite Hstep. by apply IH.
Qed.

(** X20.  Once the landing page has been removed it never comes back: no
    later update, with or without data, changes any field or any child. *)
Theorem removed_landing_page_stays_removed updates this :
  landingPageHistory children created this →
  LandingPageFields.LandingPageRemoved this = true →
  handleUpdates updates this = (this, Normal ()).
Proof.
  intros Hhistory Hremoved.
  assert (LandingPageFields.isLandingPageOn this = true) as Hon.
  { destruct Hhistory as [(_ & Hnot & _)|[(_ & Hnot & _)|(Hon & _)]];
      [congruence..|done]. }
  induction updates as [|options later IH]; [done|].
  simpl. unfold HandleLandingPage.
  rewrite Hon, Hremoved. simpl. by destruct (withoutData options).
Qed.

(** X21.  In every state the visual can be in, the landing page is among
    the children of the host element exactly while it has been turned on
    and not yet removed; and right after an update that brings data it is
    not there. *)
Theorem landing_page_shown_without_data_only options this :
  landingPageHistory children created this →
  (landingPageShown this
   ↔ LandingPageFields.isLandingPageOn this = true
     ∧ LandingPageFields.LandingPageRemoved this = false)
  ∧ ∃ this',
      HandleLandingPage options this = (this', Normal ())
      ∧ (withoutData options = false → ¬ landingPageShown this').
Proof.
  assert (∀ fields,
            landingPageHistory children created fields →
            landingPageShown fields
            ↔ LandingPageFields.isLandingPageOn fields = true
              ∧ LandingPageFields.LandingPageRemoved fields = false)
    as Hshown.
  { unfold landingPageShown.
    intros fields [(Hon & Hremoved & Hunset & Helement & _)
                  |[(Hon & Hremoved & Hpage & Helement)
                   |(Hon & Hremoved & Hpage & Helement)]];
      rewrite Hon, Hremoved.
    - split; [|by intros [[=] _]]. intros (page & Hpage & _). congruence.
    - split; [done|]. intros _. eexists. split; [done|].
      rewrite Helement. apply elem_of_app. right. by left.
    - split; [|by intros [_ [=]]]. intros (page & Hsome & Hin).
      rewrite Hpage in Hsome. injection Hsome as <-.
      rewrite Helement in Hin. by apply page_not_among_children in Hin. }
  intros Hhistory. split; [by apply Hshown|].
  destruct (HandleLandingPage_history options this Hhistory)
    as (this' & Hstep & Hnext & Hdata).
  exists this'. split; [done|].
  intros Hwith [Hon Hremoved]%Hshown; [|done].
  specialize (Hdata Hwith Hon). congruence.
Qed.

End LandingPageFacts.

(** * The further properties on concrete inputs *)

Section FurtherInstances.
#[local] Existing Instance rowRuntime.

Import BarChartViewModel.

(** X2 on three bars drawn outside high-contrast mode. *)
Lemma no_stroke_outside_high_contrast_witness :
  isHighContrast (IVisualHost.colorPalette (Sample.host false)) = false
  ∧ ∃ viewModel,
      visualTransform Sample.options (Sample.host false) = Normal viewModel
      ∧ length (dataPoints viewModel) = 3
      ∧ Forall (fun dataPoint =>
                  BarChartDataPoint.strokeWidth dataPoint = 0%float
                  ∧ BarChartDataPoint.strokeColor dataPoint = None)
          (dataPoints viewModel).
Proof.
  split; [reflexivity|]. eexists. split; [reflexivity|].
  split; [reflexivity|].
  exact (no_stroke_outside_high_contrast Sample.options (Sample.host false) _
           eq_refl eq_refl).
Defined.

(** X3 on one category and four values: the last bar is labelled
    ["undefined"] and takes the palette colour of that key. *)
Lemma rows_past_the_categories_witness :
  [Sample.otherValue] !! 0 = Some Sample.otherValue
  ∧ ∃ viewModel,
      visualTransform Scenario.longValues (Sample.host false)
      = Normal viewModel
      ∧ BarChartDataPoint.category <$> dataPoints viewModel !! 3
        = Some "undefined"
      ∧ BarChartDataPoint.color <$> dataPoints viewModel !! 3
        = Some "#374649".
Proof.
  split; [reflexivity|].
  destruct (rows_past_the_categories Scenario.longValues (Sample.host false)
              _ Scenario.shortCategory _ Sample.otherValue
              ltac:(guard_by_evaluation) eq_refl)
    as (viewModel & Hreturn & Hpast).
  exists viewModel. split; [exact Hreturn|].
  assert (∃ dataPoint, dataPoints viewModel !! 3 = Some dataPoint)
    as [dataPoint Hpoint].
  { assert (visualTransform Scenario.longValues (Sample.host false)
            = Normal viewModel → is_Some (dataPoints viewModel !! 3))
      as Hsome by (intros [= <-]; by eexists).
    exact (Hsome Hreturn). }
  destruct (Hpast 3 dataPoint ltac:(simpl; lia) Hpoint)
    as (Hcategory & _ & Hcolor).
  rewrite Hpoint. simpl. rewrite Hcategory, (Hcolor eq_refl eq_refl).
  split; reflexivity.
Defined.

(** X4 on one pair of columns, with and without an objects map. *)
Lemma dataPoints_ignore_objects_witness :
  [Sample.dataValue; Sample.otherValue] !! 0 = Some Sample.dataValue
  ∧ [Sample.dataValue] !! 0 = Some Sample.dataValue
  ∧ ∃ viewModel viewModel',
      visualTransform Sample.options (Sample.host false) = Normal viewModel
      ∧ visualTransform Sample.plainOptions (Sample.host false)
        = Normal viewModel'
      ∧ dataPoints viewModel = dataPoints viewModel'
      ∧ dataMax viewModel = dataMax viewModel'.
Proof.
  split; [reflexivity|]. split; [reflexivity|].
  exact (dataPoints_ignore_objects Sample.options Sample.plainOptions
           (Sample.host false) _ _ Sample.category _ _ Sample.dataValue
           ltac:(guard_by_evaluation) ltac:(guard_by_evaluation)
           eq_refl eq_refl).
Defined.

(** X5 on one objects map, with two different pairs of columns. *)
Lemma settings_ignore_columns_witness :
  [Sample.dataValue; Sample.otherValue] !! 0 = Some Sample.dataValue
  ∧ [Sample.otherValue] !! 0 = Some Sample.otherValue
  ∧ ∃ viewModel viewModel' barChartSettings,
      visualTransform Sample.options (Sample.host false) = Normal viewModel
      ∧ visualTransform Scenario.longValues (Sample.host false)
        = Normal viewModel'
      ∧ settings viewModel = Some barChartSettings
      ∧ settings viewModel' = Some barChartSettings.
Proof.
  split; [reflexivity|]. split; [reflexivity|].
  exact (settings_ignore_columns Sample.options Scenario.longValues
           (Sample.host false) _ _ Sample.category Scenario.shortCategory
           _ _ Sample.dataValue Sample.otherValue
           ltac:(guard_by_evaluation) ltac:(guard_by_evaluation)
           eq_refl eq_refl eq_refl).
Defined.

(** X7 on the rows 1 and 0 selected, given in two ways. *)
Lemma selection_order_is_irrelevant_witness :
  (∀ selectionId : nat, selectionId ∈ [1; 0] ↔ selectionId ∈ [0; 1; 1])
  ∧ syncSelectionState (Some Sample.bars) (Some [1; 0])
    = syncSelectionState (Some Sample.bars) (Some [0; 1; 1]).
Proof.
  assert (∀ selectionId : nat, selectionId ∈ [1; 0] ↔ selectionId ∈ [0; 1; 1])
    as Hsame.
  { intros selectionId. rewrite !elem_of_cons, elem_of_nil. intuition. }
  split; [exact Hsame|].
  exact (selection_order_is_irrelevant Sample.bars [1; 0] [0; 1; 1] Hsame).
Defined.

(** X9 on the second bar, selected alone and then together with the
    first. *)
Lemma growing_selection_keeps_bars_solid_witness :
  (∀ selectionId : nat, selectionId ∈ [1] → selectionId ∈ [1; 0])
  ∧ ∃ node',
      syncSelectionState (Some Sample.bars) (Some [1; 0]) ≫= (.!! 1)
      = Some node'
      ∧ Bar.style node' !! "fill-opacity" = Some (StyleNumber 1)
      ∧ Bar.style node' !! "stroke-opacity" = Some (StyleNumber 1).
Proof.
  assert (∀ selectionId : nat, selectionId ∈ [1] → selectionId ∈ [1; 0])
    as Hgrows.
  { intros selectionId. rewrite !elem_of_cons, elem_of_nil. intuition. }
  split; [exact Hgrows|].
  eapply (growing_selection_keeps_bars_solid Sample.bars [1] [1; 0] 1 _ Hgrows);
    [reflexivity|vm_compute; reflexivity].
Defined.

(** X11 on an object name of another visual. *)
Lemma unknown_object_enumerates_nothing_witness :
  ("legend" ∉ "colorSelector" :: settingsSections)
  ∧ enumerateObjectInstances Scenario.getSelector None None
      (Scenario.named "legend")
    = Normal [].
Proof.
  assert ("legend" ∉ "colorSelector" :: settingsSections) as Hunknown.
  { unfold settingsSections. rewrite !not_elem_of_cons.
    repeat split; [discriminate..|apply not_elem_of_nil]. }
  split; [exact Hunknown|].
  exact (unknown_object_enumerates_nothing Scenario.getSelector None None
           (Scenario.named "legend") Hunknown).
Defined.

(** X14 on the opacity of the general view, at its default. *)
Lemma members_are_enumerated_witness :
  isHelpLinkColor generalView_opacity = false
  ∧ ∃ instance,
      enumerateObjectInstances Scenario.getSelector
        (Some (Some defaultSettings)) None (Scenario.named "generalView")
      = Normal [instance]
      ∧ VisualObjectInstance.properties instance !! "opacity"
        = Some (numberValue 100).
Proof.
  split; [reflexivity|].
  destruct (members_are_enumerated Scenario.getSelector defaultSettings None
              generalView_opacity eq_refl)
    as (instance & Hreturn & _ & Hopacity & _).
  exists instance. split; [exact Hreturn|exact Hopacity].
Defined.

(** X15 on the general view, the section that holds a [helpLinkColor]. *)
Lemma helpLinkColor_is_never_offered_witness :
  ∃ instances,
    enumerateObjectInstances Scenario.getSelector
      (Some (Some defaultSettings)) None (Scenario.named "generalView")
    = Normal instances
    ∧ length instances = 1
    ∧ Forall (fun instance =>
                VisualObjectInstance.properties instance !! "helpLinkColor"
                = None)
        instances.
Proof.
  eexists. split; [reflexivity|]. split; [reflexivity|].
  exact (helpLinkColor_is_never_offered Scenario.getSelector
           (Some (Some defaultSettings)) None (Scenario.named "generalView")
           _ eq_refl).
Defined.

(** X16 on a card section, which reports three ranges. *)
Lemma instances_are_well_formed_witness :
  ∃ instances,
    enumerateObjectInstances Scenario.getSelector
      (Some (Some defaultSettings)) None
      (Scenario.named "CardWithManyPropertiesFormatting")
    = Normal instances
    ∧ length instances = 1
    ∧ Forall (fun instance =>
                VisualObjectInstance.objectName instance
                = "CardWithManyPropertiesFormatting"
                ∧ ∀ ranges name range,
                    VisualObjectInstance.validValues instance = Some ranges →
                    ranges !! name = Some range →
                    PrimFloat.leb (NumberRange.min range)
                      (NumberRange.max range) = true
                    ∧ ∃ n, VisualObjectInstance.properties instance !! name
                           = Some (numberValue n))
        instances.
Proof.
  eexists. split; [reflexivity|]. split; [reflexivity|].
  exact (instances_are_well_formed Scenario.getSelector
           (Some (Some defaultSettings)) None
           (Scenario.named "CardWithManyPropertiesFormatting") _ eq_refl).
Defined.

(** X18 on three categories and two values: the third bar has no
    tooltip. *)
Lemma tooltips_past_the_values_throw_witness :
  [Sample.dataValue; Sample.otherValue] !! 0 = Some Sample.dataValue
  ∧ ∃ viewModel dataPoint e,
      visualTransform Sample.options (Sample.host false) = Normal viewModel
      ∧ dataPoints viewModel !! 2 = Some dataPoint
      ∧ getTooltipData Scenario.getLocalizedString "en-US" dataPoint
        = Throw e.
Proof.
  split; [reflexivity|].
  destruct (tooltips_past_the_values_throw Scenario.getLocalizedString
              Sample.options (Sample.host false) _ Sample.category _
              Sample.dataValue "en-US" ltac:(guard_by_evaluation) eq_refl)
    as (viewModel & Hreturn & Hpast).
  assert (∃ dataPoint, dataPoints viewModel !! 2 = Some dataPoint)
    as [dataPoint Hpoint].
  { assert (visualTransform Sample.options (Sample.host false)
            = Normal viewModel → is_Some (dataPoints viewModel !! 2))
      as Hsome by (intros [= <-]; by eexists).
    exact (Hsome Hreturn). }
  destruct (Hpast 2 dataPoint ltac:(simpl; lia) Hpoint) as [e Hthrow].
  by exists viewModel, dataPoint, e.
Defined.

(** X19 on an update without data, one with data, and one without. *)
Lemma landing_page_history_is_kept_witness :
  landingPageHistory (LandingPageFields.element Scenario.constructed) 2
    Scenario.constructed
  ∧ ∃ this',
      handleUpdates [Scenario.noData; Sample.options; Scenario.noData]
        Scenario.constructed
      = (this', Normal ())
      ∧ landingPageHistory (LandingPageFields.element Scenario.constructed) 2
          this'.
Proof.
  assert (Forall (fun child => nodeId child < 2)
            (LandingPageFields.element Scenario.constructed)) as Hcreated
    by (repeat constructor).
  assert (landingPageHistory (LandingPageFields.element Scenario.constructed)
            2 Scenario.constructed) as Hhistory
    by (left; repeat split; reflexivity).
  split; [exact Hhistory|].
  exact (landing_page_history_is_kept _ 2 Hcreated _ _ Hhistory).
Defined.

(** X20 on the fields after the page was shown and removed. *)
Lemma removed_landing_page_stays_removed_witness :
  LandingPageFields.LandingPageRemoved Scenario.dismissed = true
  ∧ handleUpdates [Scenario.noData; Sample.options; Scenario.noData]
      Scenario.dismissed
    = (Scenario.dismissed, Normal ()).
Proof.
  split; [reflexivity|].
  apply (removed_landing_page_stays_removed
           (LandingPageFields.element Scenario.constructed) 2);
    [right; right; repeat split; reflexivity|reflexivity].
Defined.

(** X21 on the first update, bringing data. *)
Lemma landing_page_shown_without_data_only_witness :
  withoutData Sample.options = false
  ∧ ∃ this',
      HandleLandingPage Sample.options Scenario.constructed
      = (this', Normal ())
      ∧ ¬ landingPageShown this'.
Proof.
  split; [reflexivity|].
  assert (Forall (fun child => nodeId child < 2)
            (LandingPageFields.element Scenario.constructed)) as Hcreated
    by (repeat constructor).
  destruct (landing_page_shown_without_data_only _ 2 Hcreated Sample.options
              Scenario.constructed ltac:(left; repeat split; reflexivity))
    as (_ & this' & Hstep & Hhidden).
  exists this'. split; [exact Hstep|exact (Hhidden eq_refl)].
Defined.

End FurtherInstances.
